(** * XRT HAL driver loader: [runtime_src/xrt/device/hal.cpp]

    A shallow embedding of the driver discovery code of the XRT runtime
    ([createHalDevices], [loadDevices], [load_xdp]) together with the
    properties of its behaviour.

    The operating system (environment, file system, dynamic linker) and the
    configuration subsystem are read through a [World] of oracles.  Every
    call that leaves the translation unit is recorded in a trace of
    [event]s, and a C++ exception is the left summand of the result. *)

From Stdlib Require Import ZArith List String Ascii Bool Lia.
From Stdlib Require Import DecimalString.
Import ListNotations.

Local Open Scope string_scope.
Local Open Scope Z_scope.

(** ** C++ values *)

(** [unsigned int] is 32 bits wide on every platform [getPlatform] lists. *)
Definition UINT_MODULUS : Z := 2 ^ 32.

Definition to_unsigned (z : Z) : Z := z mod UINT_MODULUS.

(** Conversion of an [unsigned int] to [int], as in [version = vFunc()]
    where [version] was declared by [auto version = 1]. *)
Definition to_int (z : Z) : Z :=
  let u := to_unsigned z in
  if u <? 2 ^ 31 then u else u - UINT_MODULUS.

(** [std::to_string(int)]. *)
Definition to_string (z : Z) : string := NilZero.string_of_int (Z.to_int z).

(** The escape [\n] of a C++ string literal. *)
Definition newline : string := String (ascii_of_nat 10) EmptyString.

(** [std::runtime_error(what)]. *)
Inductive exn : Type :=
| runtime_error (what : string).

(** ** boost::filesystem::path, as far as the loader uses it *)

Definition is_separator (c : ascii) : bool := Ascii.eqb c "/"%char.

Fixpoint last_char (s : string) : option ascii :=
  match s with
  | EmptyString => None
  | String c EmptyString => Some c
  | String _ rest => last_char rest
  end.

Definition empty (s : string) : bool :=
  match s with EmptyString => true | _ => false end.

(** [p / q] ([path::operator/=] of Boost.Filesystem v3): nothing is appended
    for an empty [q]; a separator is inserted unless [p] is empty, [p]
    already ends with one, or [q] starts with one. *)
Definition path_append (p q : string) : string :=
  match q with
  | EmptyString => p
  | String c _ =>
      if is_separator c then p ++ q
      else match last_char p with
           | None => q
           | Some l => if is_separator l then p ++ q else p ++ "/" ++ q
           end
  end.

Infix "//" := path_append (at level 40, left associativity).

(** The text after the last separator of a path. *)
Fixpoint filename (s : string) : string :=
  match s with
  | EmptyString => EmptyString
  | String c rest =>
      if existsb is_separator (list_ascii_of_string rest) then filename rest
      else if is_separator c then rest
      else s
  end.

(** The suffix of [s] that starts at its last dot, if it has a dot. *)
Fixpoint from_last_dot (s : string) : option string :=
  match s with
  | EmptyString => None
  | String c rest =>
      match from_last_dot rest with
      | Some e => Some e
      | None => if Ascii.eqb c "."%char then Some s else None
      end
  end.

(** [path::extension()]: empty for the file names [.] and [..], otherwise
    the file name from its last dot on. *)
Definition extension (p : string) : string :=
  let name := filename p in
  if (name =? ".")%string || (name =? "..")%string then EmptyString
  else match from_last_dot name with
       | Some e => e
       | None => EmptyString
       end.

(** ** The world outside the translation unit *)

(** A [void*] returned by [dlopen]; a failed [dlopen] is [None]. *)
Definition handle : Type := Z.

Record World : Type := mkWorld {
  (** [getenv(name)]; [None] is the null pointer. *)
  getenv : string -> option string;
  (** [bfs::exists], [bfs::is_regular_file], [bfs::is_directory]. *)
  fs_exists : string -> bool;
  fs_is_regular_file : string -> bool;
  fs_is_directory : string -> bool;
  (** [dlopen(path, flags)]. *)
  dlopen : string -> option handle;
  (** [dlsym(handle, name)]: [Some v] when the library exports [name], a
      function of no argument whose call returns [v] (nothing for a [void]
      function); [None] is the null pointer. *)
  dlsym : handle -> string -> option Z;
  (** [dlerror()]. *)
  dlerror : string;
  (** [xrt::config::get_hw_em_driver()], [xrt::config::get_sw_em_driver()]. *)
  get_hw_em_driver : string;
  get_sw_em_driver : string
}.

(** The places of the code that examine a library file. *)
Inductive slot : Type :=
| primary        (* lib/libxrt_core.so *)
| secondary      (* lib/libxrt_aws.so *)
| hw_emulation   (* get_hw_em_driver or lib/libxrt_hwemu.so *)
| sw_emulation   (* get_sw_em_driver or lib/libxrt_swemu.so *)
| xdp.           (* lib/liboclxdp.so *)

Inductive binding : Type := RTLD_LAZY | RTLD_NOW.

(** The observable calls, in the order the code makes them. *)
Inductive event : Type :=
| EvIsDirectory (p : string)
| EvConfig (k : slot)
| EvIsDLL (k : slot) (p : string)
| EvDlopen (dll : string) (b : binding)
| EvDlsym (h : handle) (name : string)
| EvCall (h : handle) (name : string)
| EvRelease (h : handle)
| EvDlclose (h : handle)
| EvCreateDevices (dll : string) (h : handle) (count : Z).

(** ** Computations: a trace of events and a value or an exception *)

Definition M (A : Type) : Type := list event * (exn + A).

Definition ret {A} (a : A) : M A := ([], inr a).

Definition throw {A} (e : exn) : M A := ([], inl e).

Definition emit (e : event) : M unit := ([e], inr tt).

Definition bind {A B} (m : M A) (f : A -> M B) : M B :=
  match m with
  | (t, inl e) => (t, inl e)
  | (t, inr a) => let (t', r) := f a in ((t ++ t')%list, r)
  end.

Notation "x <- m ;; k" := (bind m (fun x => k))
  (at level 61, m at next level, right associativity).
Notation "' pat <- m ;; k" :=
  (bind m (fun x => match x with pat => k end))
  (at level 61, pat pattern, m at next level, right associativity).
Notation "m ;;; k" := (bind m (fun _ => k))
  (at level 61, right associativity).

Definition trace {A} (m : M A) : list event := fst m.
Definition outcome {A} (m : M A) : exn + A := snd m.

Definition slot_eqb (a b : slot) : bool :=
  match a, b with
  | primary, primary | secondary, secondary
  | hw_emulation, hw_emulation | sw_emulation, sw_emulation
  | xdp, xdp => true
  | _, _ => false
  end.

(** The event is a check of a library file at slot [k]. *)
Definition is_check (k : slot) (e : event) : bool :=
  match e with EvIsDLL k' _ => slot_eqb k k' | _ => false end.

(** Some check of a library file at slot [k] occurs in the trace. *)
Definition attempted (k : slot) (t : list event) : bool :=
  existsb (is_check k) t.

(** The computation never makes an event that satisfies [p]. *)
Definition never {A} (p : event -> bool) (m : M A) : Prop :=
  existsb p (trace m) = false.

Definition released (h : handle) (t : list event) : bool :=
  existsb (fun e => match e with EvRelease h' => h =? h' | _ => false end) t.

Definition closed (h : handle) (t : list event) : bool :=
  existsb (fun e => match e with EvDlclose h' => h =? h' | _ => false end) t.

Definition called (h : handle) (name : string) (t : list event) : bool :=
  existsb (fun e => match e with
                    | EvCall h' n => (h =? h') && (name =? n)%string
                    | _ => false
                    end) t.

(** ** The anonymous namespace of hal.cpp *)

Definition emptyOrValue (cstr : option string) : string :=
  match cstr with Some s => s | None => EmptyString end.

Definition propeFunc : string := "xclProbe".
Definition versionFunc : string := "xclVersion".
Definition dllExt : string := ".so".

Section Loader.

Variable w : World.

Definition directoryOrError (path : string) : M unit :=
  emit (EvIsDirectory path) ;;;
  if negb (fs_is_directory w path)
  then throw (runtime_error ("No such directory '" ++ path ++ "'"))
  else ret tt.

(** The validity predicate itself. *)
Definition isDLL_at (path : string) : bool :=
  fs_exists w path && fs_is_regular_file w path
  && (extension path =? dllExt)%string.

(** A call of [isDLL] made for slot [k]. *)
Definition isDLL (k : slot) (path : string) : M bool :=
  emit (EvIsDLL k path) ;;; ret (isDLL_at path).

(** [static bool val = (std::getenv("XCL_EMULATION_MODE") != nullptr)]: the
    value is read at the first call and kept, so all the tests of one call of
    [loadDevices] agree. *)
Definition isEmulationMode : bool :=
  match getenv w "XCL_EMULATION_MODE" with Some _ => true | None => false end.

(** The resolved function called with no argument. *)
Definition call (h : handle) (name : string) (v : Z) : M Z :=
  emit (EvCall h name) ;;; ret (to_unsigned v).

(** [std::unique_ptr<void, decltype(delHandle)>]: the pointer it owns, or
    nothing once released. *)
Definition handle_type : Type := option handle.

(** The destructor of the [unique_ptr], run where its scope is left. *)
Definition destroy (u : handle_type) : M unit :=
  match u with
  | Some h => emit (EvDlclose h)
  | None => ret tt
  end.

(** [handle.release()]. *)
Definition release (u : handle_type) : M (handle * handle_type) :=
  match u with
  | Some h => emit (EvRelease h) ;;; ret (h, None)
  | None => ret (0, None)
  end.

Variable device : Type.

(** What the version-2 adapter constructs for a library. *)
Variable hal2_devices : string -> handle -> Z -> list device.

(** Modelled from the spec: [hal2::createDevices], declared in another
    translation unit.  It receives the originating path, the raw handle and
    the device count, and the devices it constructs are appended to the
    running device list. *)
Definition hal2_createDevices
    (devices : list device) (dll : string) (h : handle) (count : Z)
  : M (list device) :=
  emit (EvCreateDevices dll h count) ;;;
  ret (devices ++ hal2_devices dll h count)%list.

Definition legacy_error (version : Z) : exn :=
  runtime_error ("Legacy HAL version " ++ to_string version ++ " not supported").

Definition version_error (version : Z) : exn :=
  runtime_error ("HAL version " ++ to_string version ++ " not supported").

Definition open_error (dll : string) : exn :=
  runtime_error ("Failed to open HAL driver '" ++ dll ++ "'" ++ newline ++ dlerror w).

(** [count || (count = probeFunc()) || pmdCount] with [pmdCount = 0]: the
    probe is called only for a zero [count], and its result is assigned to
    [count]. *)
Definition negotiate_count (h : handle) (count probe : Z) : M Z :=
  if negb (count =? 0) then ret count else call h propeFunc probe.

(** [createHalDevices(devices, dll, count)]: the device list after the call,
    or the exception that left it. *)
Definition createHalDevices
    (devices : list device) (dll : string) (count : Z) : M (list device) :=
  emit (EvDlopen dll RTLD_LAZY) ;;;
  match dlopen w dll with
  | None => throw (open_error dll)
  | Some h =>
      let handle := Some h in
      emit (EvDlsym h propeFunc) ;;;
      match dlsym w h propeFunc with
      | None => destroy handle ;;; ret devices
      | Some probeFunc =>
          count <- negotiate_count h (to_unsigned count) probeFunc ;;
          if negb (count =? 0) then
            emit (EvDlsym h versionFunc) ;;;
            version <- match dlsym w h versionFunc with
                       | Some vFunc => v <- call h versionFunc vFunc ;; ret (to_int v)
                       | None => ret 1
                       end ;;
            if version =? 1 then
              destroy handle ;;; throw (legacy_error version)
            else if version =? 2 then
              '(raw, handle) <- release handle ;;
              devices <- hal2_createDevices devices dll raw count ;;
              destroy handle ;;; ret devices
            else
              destroy handle ;;; throw (version_error version)
          else
            destroy handle ;;; ret devices
      end
  end.

(** ** namespace xrt::hal *)

Definition is_nil {A} (l : list A) : bool :=
  match l with [] => true | _ => false end.

(** Lines 158-163: libxrt_core. *)
Definition load_core (xrt : string) (devices : list device) : M (list device) :=
  if negb (empty xrt) && negb isEmulationMode then
    directoryOrError xrt ;;;
    let p := xrt // "lib/libxrt_core.so" in
    b <- isDLL primary p ;;
    if b then createHalDevices devices p 0 else ret devices
  else ret devices.

(** Lines 165-169: libxrt_aws, when no device was found so far. *)
Definition load_aws (xrt : string) (devices : list device) : M (list device) :=
  if is_nil devices then
    let p := xrt // "lib/libxrt_aws.so" in
    b <- isDLL secondary p ;;
    if b then createHalDevices devices p 0 else ret devices
  else ret devices.

(** Lines 171-183: the hardware emulation driver. *)
Definition load_hwemu (xrt : string) (devices : list device) : M (list device) :=
  if negb (empty xrt) && isEmulationMode then
    directoryOrError xrt ;;;
    emit (EvConfig hw_emulation) ;;;
    let hw_em_driver_path := get_hw_em_driver w in
    hw_em_driver_path <-
      (if (hw_em_driver_path =? "null")%string then
         let p := xrt // "lib/libxrt_hwemu.so" in
         b <- isDLL hw_emulation p ;;
         ret (if b then p else hw_em_driver_path)
       else ret hw_em_driver_path) ;;
    b <- isDLL hw_emulation hw_em_driver_path ;;
    if b then createHalDevices devices hw_em_driver_path 0 else ret devices
  else ret devices.

(** Lines 185-197: the software emulation driver. *)
Definition load_swemu (xrt : string) (devices : list device) : M (list device) :=
  if negb (empty xrt) && isEmulationMode then
    directoryOrError xrt ;;;
    emit (EvConfig sw_emulation) ;;;
    let sw_em_driver_path := get_sw_em_driver w in
    sw_em_driver_path <-
      (if (sw_em_driver_path =? "null")%string then
         let p := xrt // "lib/libxrt_swemu.so" in
         b <- isDLL sw_emulation p ;;
         ret (if b then p else sw_em_driver_path)
       else ret sw_em_driver_path) ;;
    b <- isDLL sw_emulation sw_em_driver_path ;;
    if b then createHalDevices devices sw_em_driver_path 0 else ret devices
  else ret devices.

Definition root_not_set : exn := runtime_error "XILINX_XRT must be set".

Definition loadDevices : M (list device) :=
  let devices := [] in
  let xrt := emptyOrValue (getenv w "XILINX_XRT") in
  devices <- load_core xrt devices ;;
  devices <- load_aws xrt devices ;;
  devices <- load_hwemu xrt devices ;;
  devices <- load_swemu xrt devices ;;
  if empty xrt then throw root_not_set else ret devices.

Definition xdp_open_error (p : string) : exn :=
  runtime_error ("Failed to open XDP library '" ++ p ++ "'" ++ newline ++ dlerror w).

Definition xdp_init_error (s : string) : exn :=
  runtime_error ("Failed to initialize XDP library, '" ++ s
                 ++ "' symbol not found." ++ newline ++ dlerror w).

(** The constructor of [xdp_once_loader]. *)
Definition xdp_once_loader : M unit :=
  let xrt := emptyOrValue (getenv w "XILINX_XRT") in
  let libname := "liboclxdp.so" in
  if empty xrt then
    throw (runtime_error ("Library " ++ libname ++ " not found! XILINX_XRT not set"))
  else
    let p := xrt // "lib" in
    directoryOrError p ;;;
    let p := p // libname in
    b <- isDLL xdp p ;;
    if negb b then
      throw (runtime_error ("Library " ++ p ++ " not found!"))
    else
      emit (EvDlopen p RTLD_NOW) ;;;
      match dlopen w p with
      | None => throw (xdp_open_error p)
      | Some handle =>
          let s := "initXDPLib" in
          emit (EvDlsym handle s) ;;;
          match dlsym w handle s with
          | None => throw (xdp_init_error s)
          | Some _ => emit (EvCall handle s)
          end
      end.

(** [load_xdp()], from the state of the function-local
    [static xdp_once_loader xdp_loaded] to its state after the call.  The
    constructor runs when control passes the declaration of a static that is
    not initialized; a constructor left by an exception leaves the static
    not initialized (C++11 [stmt.dcl]/4). *)
Definition load_xdp (xdp_loaded : bool) : bool * M unit :=
  if xdp_loaded then (true, ret tt)
  else
    let m := xdp_once_loader in
    match outcome m with
    | inr _ => (true, m)
    | inl _ => (false, m)
    end.

End Loader.

Arguments hal2_createDevices {device} hal2_devices devices dll h count.
Arguments createHalDevices w {device} hal2_devices devices dll count.
Arguments load_core w {device} hal2_devices xrt devices.
Arguments load_aws w {device} hal2_devices xrt devices.
Arguments load_hwemu w {device} hal2_devices xrt devices.
Arguments load_swemu w {device} hal2_devices xrt devices.
Arguments loadDevices w {device} hal2_devices.

Arguments createHalDevices : simpl never.
Arguments load_core : simpl never.
Arguments load_aws : simpl never.
Arguments load_hwemu : simpl never.
Arguments load_swemu : simpl never.
Arguments path_append : simpl never.

(** The install root as [loadDevices] and [load_xdp] read it. *)
Definition install_root (w : World) : string :=
  emptyOrValue (getenv w "XILINX_XRT").

(** Successive calls of [load_xdp] in one process, the [n]-th in the world
    [nth n ws]: the events of all the calls in order, and the final state of
    the static. *)
Fixpoint load_xdp_calls (ws : list World) (xdp_loaded : bool)
  : list event * bool :=
  match ws with
  | [] => ([], xdp_loaded)
  | w :: rest =>
      let (loaded, m) := load_xdp w xdp_loaded in
      let (t, final) := load_xdp_calls rest loaded in
      ((trace m ++ t)%list, final)
  end.

(** How often an entry point [name] was invoked in a trace. *)
Definition invocations (name : string) (t : list event) : nat :=
  List.length (filter (fun e => match e with
                           | EvCall _ n => (name =? n)%string
                           | _ => false
                           end) t).

(** How often [dlopen] was called in a trace. *)
Definition opens (t : list event) : nat :=
  List.length (filter (fun e => match e with EvDlopen _ _ => true | _ => false end) t).

(** ** The negotiation in the words of its description *)

(** The device count: the hinted count if it is not zero, else what the
    probe entry point returns. *)
Definition negotiated_count (hint probe : Z) : Z :=
  if to_unsigned hint =? 0 then to_unsigned probe else to_unsigned hint.

(** The ABI version: what the version entry point returns, held in an
    [int]; 1 when the library has no version entry point. *)
Definition abi_version (w : World) (h : handle) : Z :=
  match dlsym w h versionFunc with
  | Some v => to_int v
  | None => 1
  end.

(** The library behind [h] has a probe entry point, a device count that is
    not zero, and ABI version 2. *)
Definition negotiates_v2 (w : World) (h : handle) (hint : Z) : bool :=
  match dlsym w h propeFunc with
  | None => false
  | Some probe =>
      negb (negotiated_count hint probe =? 0) && (abi_version w h =? 2)
  end.

(** The probe entry point is called for a zero hint only. *)
Definition probe_events (h : handle) (hint : Z) : list event :=
  if to_unsigned hint =? 0 then [EvCall h propeFunc] else [].

(** The version entry point is looked up, and called if it is there. *)
Definition version_events (w : World) (h : handle) : list event :=
  EvDlsym h versionFunc
  :: match dlsym w h versionFunc with
     | Some _ => [EvCall h versionFunc]
     | None => []
     end.

(** Steps 1 to 4 of the negotiation for an opened library, with the events
    of each outcome. *)
Definition negotiation {device : Type}
    (w : World) (hal2 : string -> handle -> Z -> list device)
    (devices : list device) (dll : string) (h : handle) (hint : Z)
  : M (list device) :=
  match dlsym w h propeFunc with
  | None => ([EvDlsym h propeFunc; EvDlclose h], inr devices)
  | Some probe =>
      let count := negotiated_count hint probe in
      let probing := (EvDlsym h propeFunc :: probe_events h hint)%list in
      if count =? 0 then ((probing ++ [EvDlclose h])%list, inr devices)
      else
        let version := abi_version w h in
        let versioning := (probing ++ version_events w h)%list in
        if version =? 1 then
          ((versioning ++ [EvDlclose h])%list, inl (legacy_error version))
        else if version =? 2 then
          ((versioning ++ [EvRelease h; EvCreateDevices dll h count])%list,
           inr (devices ++ hal2 dll h count)%list)
        else
          ((versioning ++ [EvDlclose h])%list, inl (version_error version))
  end.

(** ** The candidate blocks in the words of their description *)

(** [if (isDLL(p)) createHalDevices(devices, p.string())]: a path that is
    not a shared library is skipped. *)
Definition load_if_dll {device : Type}
    (w : World) (hal2 : string -> handle -> Z -> list device)
    (devices : list device) (p : string) : M (list device) :=
  if isDLL_at w p then createHalDevices w hal2 devices p 0 else ret devices.

(** The path of an emulation driver: the configured one, or for "null" the
    default file if that is a shared library. *)
Definition emulation_driver_path
    (w : World) (configured default : string) : string :=
  if (configured =? "null")%string then
    if isDLL_at w default then default else configured
  else configured.

(** The default file is examined for a "null" configuration only. *)
Definition default_checks (k : slot) (configured default : string)
  : list event :=
  if (configured =? "null")%string then [EvIsDLL k default] else [].

(** The exception of the version dispatch for the library behind [h]. *)
Definition unsupported_version (w : World) (h : handle) : exn :=
  if abi_version w h =? 1 then legacy_error (abi_version w h)
  else version_error (abi_version w h).

(** Whenever [m] reaches the version step for a library whose version is
    not 2, [m] ends with the exception of that version. *)
Definition aborts_on_unsupported {A} (w : World) (m : M A) : Prop :=
  forall h,
    In (EvDlsym h versionFunc) (trace m) ->
    abi_version w h <> 2 ->
    outcome m = inl (unsupported_version w h).

(** The events of an emulation block that finds no driver: the directory
    check, the configuration, the default file and the path "null". *)
Definition emulation_idle (k : slot) (xrt default : string) : list event :=
  [EvIsDirectory xrt; EvConfig k; EvIsDLL k (xrt // default); EvIsDLL k "null"].

(** ** Measures and invariants of traces *)

(** How often [dlopen] returned the handle [h] in a trace. *)
Definition acquisitions (w : World) (h : handle) (t : list event) : nat :=
  List.length
    (filter (fun e => match e with
                      | EvDlopen dll _ =>
                          match dlopen w dll with
                          | Some h' => h =? h'
                          | None => false
                          end
                      | _ => false
                      end) t).

(** How often the handle [h] was closed in a trace. *)
Definition closes (h : handle) (t : list event) : nat :=
  List.length
    (filter (fun e => match e with EvDlclose h' => h =? h' | _ => false end) t).

(** How often the handle [h] was released to the adapter in a trace. *)
Definition releases (h : handle) (t : list event) : nat :=
  List.length
    (filter (fun e => match e with EvRelease h' => h =? h' | _ => false end) t).

(** The handle [h] is closed or released as often as it was obtained. *)
Definition settled (w : World) (h : handle) (t : list event) : Prop :=
  acquisitions w h t = (closes h t + releases h t)%nat.

(** The devices the adapter constructed in a trace, in the order of its
    calls. *)
Definition created {device : Type}
    (hal2 : string -> handle -> Z -> list device) (t : list event)
  : list device :=
  flat_map (fun e => match e with
                     | EvCreateDevices dll h count => hal2 dll h count
                     | _ => []
                     end) t.

(** A computation that extends the list [base] by the devices constructed
    in its trace. *)
Definition extends {device : Type}
    (hal2 : string -> handle -> Z -> list device)
    (base : list device) (m : M (list device)) : Prop :=
  forall d, outcome m = inr d -> d = (base ++ created hal2 (trace m))%list.

(** Every event of the computation satisfies [P]. *)
Definition always {A} (P : event -> Prop) (m : M A) : Prop :=
  forall e, In e (trace m) -> P e.

(** Every exception the computation can end with satisfies [E]. *)
Definition raises_only {A} (E : exn -> Prop) (m : M A) : Prop :=
  forall e, outcome m = inl e -> E e.

(** Whenever an event of the computation has a fatal reading, the
    computation ends with that exception. *)
Definition fatal {A} (reading : event -> option exn) (m : M A) : Prop :=
  forall e x, In e (trace m) -> reading e = Some x -> outcome m = inl x.

(** The exception of [directoryOrError]. *)
Definition directory_error (path : string) : exn :=
  runtime_error ("No such directory '" ++ path ++ "'").

(** The paths [loadDevices] can form: the four fixed files under the
    install root and the two configured emulation drivers. *)
Definition candidate_paths (w : World) : list string :=
  [install_root w // "lib/libxrt_core.so";
   install_root w // "lib/libxrt_aws.so";
   install_root w // "lib/libxrt_hwemu.so";
   install_root w // "lib/libxrt_swemu.so";
   get_hw_em_driver w;
   get_sw_em_driver w].

(** A candidate path that passed [isDLL]. *)
Definition valid_candidate (w : World) (dll : string) : Prop :=
  In dll (candidate_paths w) /\ isDLL_at w dll = true.

(** The handle comes from a [dlopen] of a candidate that passed [isDLL]. *)
Definition validated (w : World) (h : handle) : Prop :=
  exists dll, valid_candidate w dll /\ dlopen w dll = Some h.

(** What holds of every event of [loadDevices]: where each check is made and
    on which path, which files are opened and how, which entry points are
    looked up and called, and what the adapter is handed. *)
Definition loader_event (w : World) (e : event) : Prop :=
  let root := install_root w in
  match e with
  | EvIsDirectory p => p = root /\ root <> EmptyString
  | EvConfig k =>
      (k = hw_emulation \/ k = sw_emulation)
      /\ isEmulationMode w = true /\ root <> EmptyString
      /\ fs_is_directory w root = true
  | EvIsDLL primary p =>
      p = root // "lib/libxrt_core.so"
      /\ isEmulationMode w = false /\ root <> EmptyString
      /\ fs_is_directory w root = true
  | EvIsDLL secondary p => p = root // "lib/libxrt_aws.so"
  | EvIsDLL hw_emulation p =>
      (p = get_hw_em_driver w
       \/ (get_hw_em_driver w = "null" /\ p = root // "lib/libxrt_hwemu.so"))
      /\ isEmulationMode w = true /\ root <> EmptyString
      /\ fs_is_directory w root = true
  | EvIsDLL sw_emulation p =>
      (p = get_sw_em_driver w
       \/ (get_sw_em_driver w = "null" /\ p = root // "lib/libxrt_swemu.so"))
      /\ isEmulationMode w = true /\ root <> EmptyString
      /\ fs_is_directory w root = true
  | EvIsDLL xdp _ => False
  | EvDlopen dll b => valid_candidate w dll /\ b = RTLD_LAZY
  | EvDlsym h name =>
      validated w h /\ (name = propeFunc \/ name = versionFunc)
  | EvCall h name =>
      validated w h /\ (name = propeFunc \/ name = versionFunc)
      /\ dlsym w h name <> None
  | EvRelease h => validated w h /\ abi_version w h = 2
  | EvDlclose h => validated w h
  | EvCreateDevices dll h count =>
      valid_candidate w dll /\ dlopen w dll = Some h
      /\ abi_version w h = 2
      /\ exists probe,
          dlsym w h propeFunc = Some probe
          /\ count = to_unsigned probe /\ count <> 0
  end.

(** The exceptions [loadDevices] can end with. *)
Definition loader_error (w : World) (e : exn) : Prop :=
  (install_root w <> EmptyString
   /\ fs_is_directory w (install_root w) = false
   /\ e = directory_error (install_root w))
  \/ (exists dll,
         valid_candidate w dll /\ dlopen w dll = None /\ e = open_error w dll)
  \/ (exists h,
         validated w h /\ abi_version w h <> 2 /\ e = unsupported_version w h)
  \/ (install_root w = EmptyString /\ e = root_not_set).

(** The fatal reading of a [dlopen] that fails. *)
Definition open_failure (w : World) (e : event) : option exn :=
  match e with
  | EvDlopen dll _ =>
      match dlopen w dll with
      | None => Some (open_error w dll)
      | Some _ => None
      end
  | _ => None
  end.

(** ** Concrete worlds *)

Fixpoint lookup {A} (tbl : list (string * A)) (k : string) : option A :=
  match tbl with
  | [] => None
  | (k', a) :: rest => if (k =? k')%string then Some a else lookup rest k
  end.

Definition member (l : list string) (k : string) : bool :=
  existsb (String.eqb k) l.

(** A world given by tables: the environment, the directories, the regular
    files, the files [dlopen] accepts with the handle it returns, and the
    entry points behind each handle with the value they return. *)
Definition table_world
    (env : list (string * string)) (dirs files : list string)
    (libs : list (string * handle))
    (symbols : list (handle * list (string * Z)))
    (hw_em sw_em : string) : World :=
  {| getenv := lookup env;
     fs_exists := fun p => member dirs p || member files p;
     fs_is_regular_file := member files;
     fs_is_directory := member dirs;
     dlopen := lookup libs;
     dlsym := fun h name =>
       match find (fun e => fst e =? h) symbols with
       | Some (_, tbl) => lookup tbl name
       | None => None
       end;
     dlerror := "cannot open shared object file";
     get_hw_em_driver := hw_em;
     get_sw_em_driver := sw_em |}.

(** The adapter of the examples: devices are numbered [0 .. count-1]. *)
Definition numbered (_ : string) (_ : handle) (count : Z) : list nat :=
  seq 0 (Z.to_nat count).

(** No install root; the working directory holds [lib/libxrt_aws.so], a
    version-2 driver with one device. *)
Definition world_unset_root : World :=
  table_world [] ["lib"] ["lib/libxrt_aws.so"]
    [("lib/libxrt_aws.so", 7)]
    [(7, [("xclProbe", 1); ("xclVersion", 2)])]
    "null" "null".

(** No install root; [lib/libxrt_aws.so] is a file that [dlopen] rejects. *)
Definition world_unset_root_bad_file : World :=
  table_world [] ["lib"] ["lib/libxrt_aws.so"] [] [] "null" "null".


Definition xrt_root : string := "/opt/xilinx/xrt".
Definition core_so : string := "/opt/xilinx/xrt/lib/libxrt_core.so".
Definition aws_so : string := "/opt/xilinx/xrt/lib/libxrt_aws.so".

(** An installation with both drivers: [libxrt_core.so] is handle 3 and
    exports [core_symbols]; [libxrt_aws.so] is handle 4 and exports
    [aws_symbols].  [env] is the environment. *)
Definition installed_world
    (env : list (string * string)) (core_symbols aws_symbols : list (string * Z))
  : World :=
  table_world env
    [xrt_root; "/opt/xilinx/xrt/lib"] [core_so; aws_so]
    [(core_so, 3); (aws_so, 4)]
    [(3, core_symbols); (4, aws_symbols)]
    "null" "null".

Definition env_hardware : list (string * string) :=
  [("XILINX_XRT", xrt_root)].

Definition env_emulation : list (string * string) :=
  [("XILINX_XRT", xrt_root); ("XCL_EMULATION_MODE", "hw_emu")].

Definition v2_driver (count : Z) : list (string * Z) :=
  [("xclProbe", count); ("xclVersion", 2)].

(** The primary library is not a HAL driver: it exports no probe. *)
Definition world_core_not_a_driver : World :=
  installed_world env_hardware [("xclVersion", 2)] (v2_driver 1).

(** The primary driver is a version-2 driver with two devices. *)
Definition world_core_v2 : World :=
  installed_world env_hardware (v2_driver 2) (v2_driver 1).

(** The primary driver probes no device. *)
Definition world_core_no_devices : World :=
  installed_world env_hardware (v2_driver 0) (v2_driver 1).

(** The primary driver has one device and no version entry point. *)
Definition world_core_legacy : World :=
  installed_world env_hardware [("xclProbe", 1)] (v2_driver 1).

(** The primary driver reports the ABI version 4294967295. *)
Definition world_core_version_max : World :=
  installed_world env_hardware [("xclProbe", 1); ("xclVersion", 4294967295)]
    (v2_driver 1).

(** The install root is set to a path that is not a directory. *)
Definition world_root_not_a_directory : World :=
  table_world env_hardware [] [] [] [] "null" "null".

(** Emulation mode without emulation drivers; the secondary library is not
    a HAL driver. *)
Definition world_emulation_aws_not_a_driver : World :=
  installed_world env_emulation (v2_driver 2) [].

(** Emulation mode without emulation drivers; the secondary driver has one
    device and version 2. *)
Definition world_emulation_aws_v2 : World :=
  installed_world env_emulation (v2_driver 2) (v2_driver 1).

(** Emulation mode without emulation drivers; the secondary driver has one
    device and no version entry point. *)
Definition world_emulation_aws_legacy : World :=
  installed_world env_emulation (v2_driver 2) [("xclProbe", 1)].

Definition hwemu_so : string := "/opt/xilinx/xrt/lib/libxrt_hwemu.so".
Definition swemu_so : string := "/opt/xilinx/xrt/lib/libxrt_swemu.so".

(** Emulation mode with both default emulation drivers installed: the
    hardware one (handle 5) has two devices, the software one (handle 6)
    has three; there is no secondary driver. *)
Definition world_emulation_defaults : World :=
  table_world env_emulation
    [xrt_root; "/opt/xilinx/xrt/lib"] [hwemu_so; swemu_so]
    [(hwemu_so, 5); (swemu_so, 6)]
    [(5, v2_driver 2); (6, v2_driver 3)]
    "null" "null".

(** Emulation mode: the secondary driver has one device and version 2; the
    configured hardware emulation driver (handle 8) reports version 3. *)
Definition world_emulation_hw_version_3 : World :=
  table_world env_emulation
    [xrt_root; "/opt/xilinx/xrt/lib"; "/opt/drivers"]
    [aws_so; "/opt/drivers/libhw.so"]
    [(aws_so, 4); ("/opt/drivers/libhw.so", 8)]
    [(4, v2_driver 1); (8, [("xclProbe", 1); ("xclVersion", 3)])]
    "/opt/drivers/libhw.so" "null".

Definition xdp_so : string := "/opt/xilinx/xrt/lib/liboclxdp.so".

(** The XDP library (handle 9) exports [xdp_symbols]. *)
Definition xdp_world (xdp_symbols : list (string * Z)) : World :=
  table_world env_hardware
    [xrt_root; "/opt/xilinx/xrt/lib"] [xdp_so]
    [(xdp_so, 9)] [(9, xdp_symbols)]
    "null" "null".

Definition world_xdp : World := xdp_world [("initXDPLib", 0)].

(** The XDP library opens but has no [initXDPLib]. *)
Definition world_xdp_no_init : World := xdp_world [].

(** Both driver files are installed, but [dlopen] rejects the primary
    one. *)
Definition world_core_unloadable : World :=
  table_world env_hardware
    [xrt_root; "/opt/xilinx/xrt/lib"] [core_so; aws_so]
    [(aws_so, 4)] [(4, v2_driver 1)]
    "null" "null".

(** An installation without any driver file. *)
Definition world_no_drivers : World :=
  table_world env_hardware [xrt_root; "/opt/xilinx/xrt/lib"] [] [] []
    "null" "null".

(** Emulation mode with both default emulation drivers installed, and a
    configured hardware emulation driver that is a file without the
    extension [.so]. *)
Definition world_emulation_bad_override : World :=
  table_world env_emulation
    [xrt_root; "/opt/xilinx/xrt/lib"; "/opt/drivers"]
    [hwemu_so; swemu_so; "/opt/drivers/hw_driver.bin"]
    [(hwemu_so, 5); (swemu_so, 6)]
    [(5, v2_driver 2); (6, v2_driver 3)]
    "/opt/drivers/hw_driver.bin" "null".

(** ** Laws of the computations *)

Lemma bind_value {A B} (t : list event) (a : A) (f : A -> M B) :
  bind (t, inr a) f = ((t ++ trace (f a))%list, outcome (f a)).
Proof. unfold bind, trace, outcome. destruct (f a); reflexivity. Qed.

Lemma bind_exception {A B} (t : list event) (e : exn) (f : A -> M B) :
  bind (t, inl e) f = (t, inl e).
Proof. reflexivity. Qed.

Lemma trace_bind {A B} (m : M A) (f : A -> M B) :
  trace (bind m f)
  = match outcome m with
    | inl _ => trace m
    | inr a => (trace m ++ trace (f a))%list
    end.
Proof.
  destruct m as [t [e | a]]; cbn; [reflexivity |].
  destruct (f a); reflexivity.
Qed.

Lemma outcome_bind {A B} (m : M A) (f : A -> M B) :
  outcome (bind m f)
  = match outcome m with
    | inl e => inl e
    | inr a => outcome (f a)
    end.
Proof.
  destruct m as [t [e | a]]; cbn; [reflexivity |].
  destruct (f a); reflexivity.
Qed.

Lemma existsb_trace_bind {A B} (p : event -> bool) (m : M A) (f : A -> M B) :
  existsb p (trace (bind m f))
  = existsb p (trace m)
    || match outcome m with
       | inl _ => false
       | inr a => existsb p (trace (f a))
       end.
Proof.
  rewrite trace_bind. destruct (outcome m).
  - rewrite orb_false_r. reflexivity.
  - apply existsb_app.
Qed.

Lemma empty_false (s : string) : s <> EmptyString -> empty s = false.
Proof. destruct s; [congruence | reflexivity]. Qed.

Lemma to_unsigned_idem (z : Z) : to_unsigned (to_unsigned z) = to_unsigned z.
Proof. unfold to_unsigned, UINT_MODULUS. apply Z.mod_mod. lia. Qed.

Lemma to_int_to_unsigned (z : Z) : to_int (to_unsigned z) = to_int z.
Proof. unfold to_int. rewrite to_unsigned_idem. reflexivity. Qed.

Lemma to_unsigned_small (z : Z) : 0 <= z < UINT_MODULUS -> to_unsigned z = z.
Proof. intros H. unfold to_unsigned. apply Z.mod_small. exact H. Qed.

Lemma to_int_small (z : Z) : 0 <= z < 2 ^ 31 -> to_int z = z.
Proof.
  intros H. unfold to_int. rewrite to_unsigned_small.
  - destruct (Z.ltb_spec z (2 ^ 31)); [reflexivity | lia].
  - unfold UINT_MODULUS. lia.
Qed.

(** [createHalDevices] opens the library and then negotiates as described. *)
Lemma createHalDevices_negotiation {device : Type}
    (w : World) (hal2 : string -> handle -> Z -> list device)
    (devices : list device) (dll : string) (hint : Z) :
  createHalDevices w hal2 devices dll hint
  = match dlopen w dll with
    | None => ([EvDlopen dll RTLD_LAZY], inl (open_error w dll))
    | Some h =>
        let r := negotiation w hal2 devices dll h hint in
        (EvDlopen dll RTLD_LAZY :: trace r, outcome r)
    end.
Proof.
  unfold createHalDevices, negotiation, negotiate_count, negotiated_count,
    abi_version, probe_events, version_events, call.
  destruct (dlopen w dll) as [h |]; [| reflexivity].
  destruct (dlsym w h propeFunc) as [probe |]; [| reflexivity].
  destruct (to_unsigned hint =? 0) eqn:Hhint; cbn [negb].
  - cbn. destruct (to_unsigned probe =? 0) eqn:Hprobe; cbn; [reflexivity |].
    destruct (dlsym w h versionFunc) as [v |]; cbn.
    + rewrite to_int_to_unsigned.
      destruct (to_int v =? 1); cbn; [reflexivity |].
      destruct (to_int v =? 2); reflexivity.
    + reflexivity.
  - cbn. rewrite Hhint. cbn.
    destruct (dlsym w h versionFunc) as [v |]; cbn.
    + rewrite to_int_to_unsigned.
      destruct (to_int v =? 1); cbn; [reflexivity |].
      destruct (to_int v =? 2); reflexivity.
    + reflexivity.
Qed.

(** Membership of an event in a trace written with [::] and [++]. *)
Ltac in_trace :=
  repeat (progress cbn [In trace fst] || rewrite in_app_iff); auto 20.

Section Properties.

Context {device : Type} (hal2 : string -> handle -> Z -> list device).

(** C10: with emulation mode off and the install root set to a non-empty
    path that is not a directory, [loadDevices] throws "No such directory"
    for the root, and the directory check is the only thing it does: no
    library file, the primary one included, has been examined. *)
Theorem loadDevices_root_not_directory (w : World) (root : string) :
  getenv w "XILINX_XRT" = Some root ->
  root <> EmptyString ->
  isEmulationMode w = false ->
  fs_is_directory w root = false ->
  loadDevices w hal2
  = ([EvIsDirectory root],
     inl (runtime_error ("No such directory '" ++ root ++ "'")))
  /\ attempted primary (trace (loadDevices w hal2)) = false.
Proof.
  intros Henv Hne Hemu Hdir.
  assert (E : loadDevices w hal2
              = ([EvIsDirectory root],
                 inl (runtime_error ("No such directory '" ++ root ++ "'")))).
  { unfold loadDevices, load_core. rewrite Henv. cbn [emptyOrValue].
    rewrite (empty_false _ Hne), Hemu. cbn [negb andb].
    unfold directoryOrError. rewrite Hdir. reflexivity. }
  split; [exact E | rewrite E; reflexivity].
Qed.

(** *** The candidate blocks of [loadDevices] *)

Lemma load_core_skipped (w : World) (xrt : string) (devices : list device) :
  negb (empty xrt) && negb (isEmulationMode w) = false ->
  load_core w hal2 xrt devices = ([], inr devices).
Proof. intros H. unfold load_core. rewrite H. reflexivity. Qed.

Lemma load_core_no_directory (w : World) (xrt : string) (devices : list device) :
  negb (empty xrt) && negb (isEmulationMode w) = true ->
  fs_is_directory w xrt = false ->
  load_core w hal2 xrt devices
  = ([EvIsDirectory xrt],
     inl (runtime_error ("No such directory '" ++ xrt ++ "'"))).
Proof.
  intros H Hdir. unfold load_core, directoryOrError. rewrite H, Hdir.
  reflexivity.
Qed.

Lemma load_core_examined (w : World) (xrt : string) (devices : list device) :
  negb (empty xrt) && negb (isEmulationMode w) = true ->
  fs_is_directory w xrt = true ->
  let c := load_if_dll w hal2 devices (xrt // "lib/libxrt_core.so") in
  load_core w hal2 xrt devices
  = (EvIsDirectory xrt :: EvIsDLL primary (xrt // "lib/libxrt_core.so") :: trace c,
     outcome c).
Proof.
  intros H Hdir c. unfold load_core, directoryOrError, isDLL. rewrite H, Hdir.
  cbn [negb]. subst c. unfold load_if_dll.
  destruct (isDLL_at w (xrt // "lib/libxrt_core.so")); cbn;
    [destruct (createHalDevices _ _ _ _ _) |]; reflexivity.
Qed.

Lemma load_aws_examined (w : World) (xrt : string) :
  let c := load_if_dll w hal2 [] (xrt // "lib/libxrt_aws.so") in
  load_aws w hal2 xrt []
  = (EvIsDLL secondary (xrt // "lib/libxrt_aws.so") :: trace c, outcome c).
Proof.
  intros c. unfold load_aws, isDLL. cbn [is_nil]. subst c. unfold load_if_dll.
  destruct (isDLL_at w (xrt // "lib/libxrt_aws.so")); cbn;
    [destruct (createHalDevices _ _ _ _ _) |]; reflexivity.
Qed.

Lemma load_aws_skipped (w : World) (xrt : string) (devices : list device) :
  devices <> [] -> load_aws w hal2 xrt devices = ([], inr devices).
Proof. intros H. unfold load_aws. destruct devices; [congruence | reflexivity]. Qed.

Lemma load_hwemu_skipped (w : World) (xrt : string) (devices : list device) :
  negb (empty xrt) && isEmulationMode w = false ->
  load_hwemu w hal2 xrt devices = ([], inr devices).
Proof. intros H. unfold load_hwemu. rewrite H. reflexivity. Qed.

Lemma load_swemu_skipped (w : World) (xrt : string) (devices : list device) :
  negb (empty xrt) && isEmulationMode w = false ->
  load_swemu w hal2 xrt devices = ([], inr devices).
Proof. intros H. unfold load_swemu. rewrite H. reflexivity. Qed.

Lemma load_hwemu_no_directory (w : World) (xrt : string) (devices : list device) :
  negb (empty xrt) && isEmulationMode w = true ->
  fs_is_directory w xrt = false ->
  load_hwemu w hal2 xrt devices
  = ([EvIsDirectory xrt],
     inl (runtime_error ("No such directory '" ++ xrt ++ "'"))).
Proof.
  intros H Hdir. unfold load_hwemu, directoryOrError. rewrite H, Hdir.
  reflexivity.
Qed.

Lemma load_swemu_no_directory (w : World) (xrt : string) (devices : list device) :
  negb (empty xrt) && isEmulationMode w = true ->
  fs_is_directory w xrt = false ->
  load_swemu w hal2 xrt devices
  = ([EvIsDirectory xrt],
     inl (runtime_error ("No such directory '" ++ xrt ++ "'"))).
Proof.
  intros H Hdir. unfold load_swemu, directoryOrError. rewrite H, Hdir.
  reflexivity.
Qed.

Lemma load_hwemu_examined (w : World) (xrt : string) (devices : list device) :
  negb (empty xrt) && isEmulationMode w = true ->
  fs_is_directory w xrt = true ->
  let default := xrt // "lib/libxrt_hwemu.so" in
  let path := emulation_driver_path w (get_hw_em_driver w) default in
  let c := load_if_dll w hal2 devices path in
  load_hwemu w hal2 xrt devices
  = ((EvIsDirectory xrt :: EvConfig hw_emulation
      :: default_checks hw_emulation (get_hw_em_driver w) default
      ++ EvIsDLL hw_emulation path :: trace c)%list,
     outcome c).
Proof.
  intros H Hdir default path c.
  unfold load_hwemu, directoryOrError, isDLL. rewrite H, Hdir.
  cbn [negb]. subst c path default.
  unfold load_if_dll, emulation_driver_path, default_checks.
  destruct (get_hw_em_driver w =? "null")%string;
    [destruct (isDLL_at w (xrt // "lib/libxrt_hwemu.so")) |];
    cbn;
    match goal with
    | |- context [isDLL_at w ?p] => destruct (isDLL_at w p)
    end; cbn;
    try (destruct (createHalDevices _ _ _ _ _)); reflexivity.
Qed.

Lemma load_swemu_examined (w : World) (xrt : string) (devices : list device) :
  negb (empty xrt) && isEmulationMode w = true ->
  fs_is_directory w xrt = true ->
  let default := xrt // "lib/libxrt_swemu.so" in
  let path := emulation_driver_path w (get_sw_em_driver w) default in
  let c := load_if_dll w hal2 devices path in
  load_swemu w hal2 xrt devices
  = ((EvIsDirectory xrt :: EvConfig sw_emulation
      :: default_checks sw_emulation (get_sw_em_driver w) default
      ++ EvIsDLL sw_emulation path :: trace c)%list,
     outcome c).
Proof.
  intros H Hdir default path c.
  unfold load_swemu, directoryOrError, isDLL. rewrite H, Hdir.
  cbn [negb]. subst c path default.
  unfold load_if_dll, emulation_driver_path, default_checks.
  destruct (get_sw_em_driver w =? "null")%string;
    [destruct (isDLL_at w (xrt // "lib/libxrt_swemu.so")) |];
    cbn;
    match goal with
    | |- context [isDLL_at w ?p] => destruct (isDLL_at w p)
    end; cbn;
    try (destruct (createHalDevices _ _ _ _ _)); reflexivity.
Qed.

Lemma loadDevices_stages (w : World) :
  loadDevices w hal2
  = (d <- load_core w hal2 (install_root w) [] ;;
     d <- load_aws w hal2 (install_root w) d ;;
     d <- load_hwemu w hal2 (install_root w) d ;;
     d <- load_swemu w hal2 (install_root w) d ;;
     if empty (install_root w) then throw root_not_set else ret d).
Proof. reflexivity. Qed.

Lemma hardware_gate (w : World) :
  install_root w <> EmptyString -> isEmulationMode w = false ->
  negb (empty (install_root w)) && negb (isEmulationMode w) = true.
Proof. intros H E. rewrite (empty_false _ H), E. reflexivity. Qed.

Lemma emulation_gate (w : World) :
  install_root w <> EmptyString -> isEmulationMode w = true ->
  negb (empty (install_root w)) && isEmulationMode w = true.
Proof. intros H E. rewrite (empty_false _ H), E. reflexivity. Qed.

Lemma attempted_load_aws (w : World) (xrt : string) :
  attempted secondary (trace (load_aws w hal2 xrt [])) = true.
Proof. rewrite load_aws_examined. reflexivity. Qed.

(** C7: a library that opens and exports no [xclProbe] is closed again,
    the device list is returned as it was and no exception is thrown; and
    [loadDevices] goes on to the next candidate: after such a primary library
    the secondary file is examined, and in emulation mode, after such a
    secondary library the hardware emulation driver is configured. *)
Theorem createHalDevices_not_a_driver
    (w : World) (devices : list device) (dll : string) (hint : Z) (h : handle) :
  dlopen w dll = Some h ->
  dlsym w h propeFunc = None ->
  createHalDevices w hal2 devices dll hint
  = ([EvDlopen dll RTLD_LAZY; EvDlsym h propeFunc; EvDlclose h], inr devices)
  /\ (dll = install_root w // "lib/libxrt_core.so" ->
      install_root w <> EmptyString -> isEmulationMode w = false ->
      fs_is_directory w (install_root w) = true -> isDLL_at w dll = true ->
      load_core w hal2 (install_root w) []
      = ([EvIsDirectory (install_root w); EvIsDLL primary dll;
          EvDlopen dll RTLD_LAZY; EvDlsym h propeFunc; EvDlclose h], inr [])
      /\ attempted secondary (trace (loadDevices w hal2)) = true)
  /\ (dll = install_root w // "lib/libxrt_aws.so" ->
      install_root w <> EmptyString -> isEmulationMode w = true ->
      fs_is_directory w (install_root w) = true -> isDLL_at w dll = true ->
      load_aws w hal2 (install_root w) []
      = ([EvIsDLL secondary dll;
          EvDlopen dll RTLD_LAZY; EvDlsym h propeFunc; EvDlclose h], inr [])
      /\ In (EvConfig hw_emulation) (trace (loadDevices w hal2))).
Proof.
  intros Hopen Hprobe.
  assert (E : forall d n,
             createHalDevices w hal2 d dll n
             = ([EvDlopen dll RTLD_LAZY; EvDlsym h propeFunc; EvDlclose h], inr d)).
  { intros d n. rewrite createHalDevices_negotiation, Hopen.
    unfold negotiation. rewrite Hprobe. reflexivity. }
  split; [apply E | split].
  - intros Hdll Hroot Hemu Hdir Hfile.
    assert (Ecore : load_core w hal2 (install_root w) []
                    = ([EvIsDirectory (install_root w); EvIsDLL primary dll;
                        EvDlopen dll RTLD_LAZY; EvDlsym h propeFunc; EvDlclose h],
                       inr [])).
    { rewrite load_core_examined by auto using hardware_gate.
      unfold load_if_dll. rewrite <- Hdll, Hfile, E. reflexivity. }
    split; [exact Ecore |].
    rewrite loadDevices_stages, Ecore. unfold attempted.
    rewrite existsb_trace_bind. cbn [outcome snd].
    rewrite existsb_trace_bind. fold (attempted secondary (trace (load_aws w hal2 (install_root w) []))).
    rewrite attempted_load_aws. rewrite orb_true_r. reflexivity.
  - intros Hdll Hroot Hemu Hdir Hfile.
    assert (Eaws : load_aws w hal2 (install_root w) []
                   = ([EvIsDLL secondary dll;
                       EvDlopen dll RTLD_LAZY; EvDlsym h propeFunc; EvDlclose h],
                      inr [])).
    { rewrite load_aws_examined.
      unfold load_if_dll. rewrite <- Hdll, Hfile, E. reflexivity. }
    split; [exact Eaws |].
    rewrite loadDevices_stages.
    rewrite load_core_skipped by (rewrite Hemu; apply andb_false_r).
    rewrite bind_value. cbn [outcome trace fst snd app]. rewrite Eaws.
    rewrite bind_value. rewrite trace_bind.
    rewrite (load_hwemu_examined w (install_root w) [])
      by auto using emulation_gate.
    cbn [outcome trace fst snd].
    destruct (outcome (load_if_dll _ _ _ _)); cbn; auto 10.
Qed.

(** C6: for an opened library with a probe entry point, the device count is
    the hinted count if that is not zero, and the result of the probe
    otherwise; the probe is called for a zero hint only.  A count that is
    not zero goes on to the version step, and at version 2 it is the count
    handed to the adapter.  When hint and probe are both zero the library is
    closed, the device list is returned as it was and nothing is thrown. *)
Theorem createHalDevices_device_count
    (w : World) (devices : list device) (dll : string)
    (hint probe : Z) (h : handle) :
  dlopen w dll = Some h ->
  dlsym w h propeFunc = Some probe ->
  0 <= hint < UINT_MODULUS ->
  0 <= probe < UINT_MODULUS ->
  let count := if hint =? 0 then probe else hint in
  let r := createHalDevices w hal2 devices dll hint in
  called h propeFunc (trace r) = (hint =? 0)
  /\ (count = 0 ->
      r = ([EvDlopen dll RTLD_LAZY; EvDlsym h propeFunc; EvCall h propeFunc;
            EvDlclose h], inr devices))
  /\ (count <> 0 -> In (EvDlsym h versionFunc) (trace r))
  /\ (count <> 0 -> abi_version w h = 2 ->
      In (EvCreateDevices dll h count) (trace r)
      /\ outcome r = inr (devices ++ hal2 dll h count)%list).
Proof.
  intros Hopen Hprobe Hhint Hpr. cbv zeta.
  remember (if hint =? 0 then probe else hint) as count eqn:Ecount.
  assert (Hcount : negotiated_count hint probe = count).
  { unfold negotiated_count. rewrite !to_unsigned_small by assumption.
    symmetry. exact Ecount. }
  rewrite createHalDevices_negotiation, Hopen. cbv zeta.
  unfold negotiation. rewrite Hprobe, Hcount.
  unfold probe_events, version_events. rewrite (to_unsigned_small hint Hhint).
  cbv zeta.
  assert (Hself : (h =? h) = true) by apply Z.eqb_refl.
  repeat split.
  - destruct (count =? 0) eqn:Hz; [| destruct (abi_version w h =? 1);
                                      [| destruct (abi_version w h =? 2)]];
      destruct (hint =? 0) eqn:Hh; cbn; rewrite ?Hself; cbn;
      destruct (dlsym w h versionFunc); cbn; rewrite ?Hself; reflexivity.
  - intros Hz. rewrite Hz. cbn.
    destruct (hint =? 0) eqn:Hh; [reflexivity |].
    apply Z.eqb_neq in Hh. congruence.
  - intros Hnz. apply Z.eqb_neq in Hnz. rewrite Hnz.
    destruct (abi_version w h =? 1); [| destruct (abi_version w h =? 2)];
      in_trace.
  - apply Z.eqb_neq in H. rewrite H, H0. cbn [Z.eqb Pos.eqb trace fst].
    in_trace.
  - apply Z.eqb_neq in H. rewrite H, H0. reflexivity.
Qed.

Lemma released_app (h : handle) (t u : list event) :
  released h (t ++ u) = released h t || released h u.
Proof. apply existsb_app. Qed.

Lemma closed_app (h : handle) (t u : list event) :
  closed h (t ++ u) = closed h t || closed h u.
Proof. apply existsb_app. Qed.

(** C4: for a library that opened, the handle is released exactly when the
    negotiation reaches ABI version 2.  Then the release is followed by the
    call of [hal2::createDevices] with the path, the handle and the device
    count, the devices it returns are appended to the list, and the handle
    is not closed.  On every other path (no probe, no device, version 1,
    another version) the last event is the [dlclose] of the handle, which is
    closed once and never released, and a list that is returned is the list
    that was passed. *)
Theorem createHalDevices_handle_ownership
    (w : World) (devices : list device) (dll : string) (hint : Z) (h : handle) :
  dlopen w dll = Some h ->
  let r := createHalDevices w hal2 devices dll hint in
  released h (trace r) = negotiates_v2 w h hint
  /\ closed h (trace r) = negb (negotiates_v2 w h hint)
  /\ (negotiates_v2 w h hint = true ->
      exists probe t,
        dlsym w h propeFunc = Some probe
        /\ trace r
           = (t ++ [EvRelease h;
                    EvCreateDevices dll h (negotiated_count hint probe)])%list
        /\ released h t = false
        /\ outcome r
           = inr (devices ++ hal2 dll h (negotiated_count hint probe))%list)
  /\ (negotiates_v2 w h hint = false ->
      exists t,
        trace r = (t ++ [EvDlclose h])%list
        /\ closed h t = false
        /\ forall d, outcome r = inr d -> d = devices).
Proof.
  intros Hopen. cbv zeta.
  rewrite createHalDevices_negotiation, Hopen. cbv zeta.
  unfold negotiates_v2, negotiation, probe_events, version_events.
  assert (Hself : (h =? h) = true) by apply Z.eqb_refl.
  destruct (dlsym w h propeFunc) as [probe |].
  2:{ cbn. rewrite Hself. repeat split; try discriminate.
      intros _. exists [EvDlopen dll RTLD_LAZY; EvDlsym h propeFunc].
      repeat split. intros d E. congruence. }
  cbv zeta.
  set (probing := (EvDlsym h propeFunc
                   :: (if to_unsigned hint =? 0 then [EvCall h propeFunc] else []))).
  set (versioning := (probing
                      ++ EvDlsym h versionFunc
                      :: match dlsym w h versionFunc with
                         | Some _ => [EvCall h versionFunc]
                         | None => []
                         end)%list).
  assert (Pr : released h probing = false)
    by (subst probing; destruct (to_unsigned hint =? 0); reflexivity).
  assert (Pc : closed h probing = false)
    by (subst probing; destruct (to_unsigned hint =? 0); reflexivity).
  assert (Vr : released h versioning = false).
  { subst versioning. rewrite released_app, Pr.
    destruct (dlsym w h versionFunc); reflexivity. }
  assert (Vc : closed h versioning = false).
  { subst versioning. rewrite closed_app, Pc.
    destruct (dlsym w h versionFunc); reflexivity. }
  assert (Cl : closed h [EvDlclose h] = true) by (cbn; rewrite Hself; reflexivity).
  assert (Rl : forall c, released h [EvRelease h; EvCreateDevices dll h c] = true)
    by (intros c; cbn; rewrite Hself; reflexivity).
  destruct (negotiated_count hint probe =? 0) eqn:Hcount.
  { cbn [negb andb trace outcome fst snd].
    change (released h (EvDlopen dll RTLD_LAZY :: ?t)) with (released h t).
    change (closed h (EvDlopen dll RTLD_LAZY :: ?t)) with (closed h t).
    rewrite released_app, closed_app, Pr, Pc, Cl.
    repeat split; try discriminate.
    intros _. exists (EvDlopen dll RTLD_LAZY :: probing).
    repeat split; [exact Pc | intros d E; congruence]. }
  cbn [negb andb].
  destruct (abi_version w h =? 1) eqn:H1.
  { assert (H2 : (abi_version w h =? 2) = false).
    { apply Z.eqb_eq in H1. rewrite H1. reflexivity. }
    rewrite H2. cbn [negb trace outcome fst snd].
    change (released h (EvDlopen dll RTLD_LAZY :: ?t)) with (released h t).
    change (closed h (EvDlopen dll RTLD_LAZY :: ?t)) with (closed h t).
    rewrite released_app, closed_app, Vr, Vc, Cl.
    repeat split; try discriminate.
    intros _. exists (EvDlopen dll RTLD_LAZY :: versioning).
    repeat split; [exact Vc | intros d E; discriminate]. }
  destruct (abi_version w h =? 2) eqn:H2; cbn [negb trace outcome fst snd];
    change (released h (EvDlopen dll RTLD_LAZY :: ?t)) with (released h t);
    change (closed h (EvDlopen dll RTLD_LAZY :: ?t)) with (closed h t);
    rewrite released_app, closed_app, Vr, Vc.
  - rewrite Rl. repeat split; try discriminate.
    intros _. exists probe, (EvDlopen dll RTLD_LAZY :: versioning).
    repeat split. exact Vr.
  - rewrite Cl. repeat split; try discriminate.
    intros _. exists (EvDlopen dll RTLD_LAZY :: versioning).
    repeat split; [exact Vc | intros d E; discriminate].
Qed.

(** The version dispatch of [createHalDevices] in general: a library without
    version entry point has version 1, version 1 is refused as legacy, and a
    version other than 1 and 2 is refused with a message that prints the
    [int] the version is held in, which is the reported version below 2^31. *)
Lemma createHalDevices_version_dispatch
    (w : World) (devices : list device) (dll : string)
    (hint probe : Z) (h : handle) :
  dlopen w dll = Some h ->
  dlsym w h propeFunc = Some probe ->
  negotiated_count hint probe <> 0 ->
  let r := createHalDevices w hal2 devices dll hint in
  (dlsym w h versionFunc = None -> abi_version w h = 1)
  /\ (abi_version w h = 1 ->
      outcome r = inl (runtime_error "Legacy HAL version 1 not supported"))
  /\ (abi_version w h <> 1 -> abi_version w h <> 2 ->
      outcome r
      = inl (runtime_error
               ("HAL version " ++ to_string (abi_version w h) ++ " not supported")))
  /\ (forall v, dlsym w h versionFunc = Some v -> 0 <= v < 2 ^ 31 ->
      abi_version w h = v).
Proof.
  intros Hopen Hprobe Hcount. cbv zeta.
  rewrite createHalDevices_negotiation, Hopen. cbv zeta.
  unfold negotiation. rewrite Hprobe. cbv zeta.
  apply Z.eqb_neq in Hcount. rewrite Hcount.
  repeat split.
  - intros Hv. unfold abi_version. rewrite Hv. reflexivity.
  - intros Hv. rewrite Hv. reflexivity.
  - intros H1 H2. apply Z.eqb_neq in H1, H2. rewrite H1, H2. reflexivity.
  - intros v Hv Hrange. unfold abi_version. rewrite Hv.
    apply to_int_small. exact Hrange.
Qed.

(** *** Events that a computation never makes *)

Lemma never_bind {A B} (p : event -> bool) (m : M A) (f : A -> M B) :
  never p m -> (forall a, never p (f a)) -> never p (bind m f).
Proof.
  unfold never. intros Hm Hf. rewrite existsb_trace_bind, Hm.
  destruct (outcome m); [reflexivity | apply Hf].
Qed.

Lemma never_ret {A} (p : event -> bool) (a : A) : never p (ret a).
Proof. reflexivity. Qed.

Lemma never_throw {A} (p : event -> bool) (e : exn) : never p (@throw A e).
Proof. reflexivity. Qed.

Lemma never_emit (p : event -> bool) (e : event) :
  p e = false -> never p (emit e).
Proof. intros H. unfold never. cbn. rewrite H. reflexivity. Qed.

(** [createHalDevices] examines no library file. *)
Lemma createHalDevices_never_checks
    (k : slot) (w : World) (devices : list device) (dll : string) (hint : Z) :
  never (is_check k) (createHalDevices w hal2 devices dll hint).
Proof.
  unfold never. rewrite createHalDevices_negotiation.
  destruct (dlopen w dll) as [h |]; [| reflexivity].
  cbv zeta. unfold negotiation, probe_events, version_events.
  destruct (dlsym w h propeFunc); [| reflexivity]. cbv zeta.
  destruct (negotiated_count hint z =? 0);
    [| destruct (abi_version w h =? 1); [| destruct (abi_version w h =? 2)]];
    destruct (to_unsigned hint =? 0), (dlsym w h versionFunc); reflexivity.
Qed.

Ltac never_steps :=
  repeat first
    [ apply never_ret
    | apply never_throw
    | apply createHalDevices_never_checks
    | apply never_emit; reflexivity
    | apply never_bind; [| intros ?]
    | match goal with
      | |- never _ (if ?b then _ else _) => destruct b
      | |- never _ (match ?x with _ => _ end) => destruct x
      end ].

Lemma load_core_never_secondary (w : World) (xrt : string) (devices : list device) :
  never (is_check secondary) (load_core w hal2 xrt devices).
Proof. unfold load_core, directoryOrError, isDLL. never_steps. Qed.

Lemma load_hwemu_never_secondary (w : World) (xrt : string) (devices : list device) :
  never (is_check secondary) (load_hwemu w hal2 xrt devices).
Proof. unfold load_hwemu, directoryOrError, isDLL. never_steps. Qed.

Lemma load_swemu_never_secondary (w : World) (xrt : string) (devices : list device) :
  never (is_check secondary) (load_swemu w hal2 xrt devices).
Proof. unfold load_swemu, directoryOrError, isDLL. never_steps. Qed.

(** C5: when the primary block completes with the device list [d], the
    secondary file is examined exactly when [d] is empty.  Emulation mode
    leaves [d] empty, so the secondary file is examined then; and a primary
    driver that contributed a device excludes the secondary candidate. *)
Theorem secondary_attempted_iff_no_devices
    (w : World) (t : list event) (d : list device) :
  load_core w hal2 (install_root w) [] = (t, inr d) ->
  attempted secondary (trace (loadDevices w hal2)) = is_nil d
  /\ (isEmulationMode w = true ->
      d = [] /\ attempted secondary (trace (loadDevices w hal2)) = true)
  /\ (d <> [] -> attempted secondary (trace (loadDevices w hal2)) = false).
Proof.
  intros Hcore.
  assert (Hmain : attempted secondary (trace (loadDevices w hal2)) = is_nil d).
  { rewrite loadDevices_stages, Hcore.
    change (attempted secondary) with (existsb (is_check secondary)).
    rewrite existsb_trace_bind. cbn [outcome snd trace fst].
    pose proof (load_core_never_secondary w (install_root w) []) as Hq.
    unfold never in Hq. rewrite Hcore in Hq. cbn [trace fst] in Hq.
    rewrite Hq. cbn [orb].
    destruct d as [| x d'].
    - rewrite existsb_trace_bind.
      change (existsb (is_check secondary)) with (attempted secondary).
      rewrite attempted_load_aws. reflexivity.
    - rewrite load_aws_skipped by discriminate.
      rewrite bind_value. cbn [app is_nil].
      assert (Hrest : never (is_check secondary)
                        (d0 <- load_hwemu w hal2 (install_root w) (x :: d') ;;
                         d1 <- load_swemu w hal2 (install_root w) d0 ;;
                         (if empty (install_root w)
                          then throw root_not_set else ret d1))).
      { apply never_bind; [apply load_hwemu_never_secondary | intros d0].
        apply never_bind; [apply load_swemu_never_secondary | intros d1].
        destruct (empty (install_root w)); [apply never_throw | apply never_ret]. }
      exact Hrest. }
  split; [exact Hmain | split].
  - intros Hemu.
    rewrite load_core_skipped in Hcore by (rewrite Hemu; apply andb_false_r).
    assert (d = []) by congruence. subst d. split; [reflexivity | exact Hmain].
  - intros Hd. rewrite Hmain. destruct d; [congruence | reflexivity].
Qed.

(** *** Unsupported versions abort the computation *)

Lemma aborts_bind {A B} (w : World) (m : M A) (f : A -> M B) :
  aborts_on_unsupported w m ->
  (forall a, aborts_on_unsupported w (f a)) ->
  aborts_on_unsupported w (bind m f).
Proof.
  intros Hm Hf h Hin Hv. rewrite trace_bind in Hin. rewrite outcome_bind.
  destruct (outcome m) as [e | a] eqn:Hout.
  - specialize (Hm h Hin Hv). congruence.
  - apply in_app_or in Hin. destruct Hin as [Hin | Hin].
    + specialize (Hm h Hin Hv). congruence.
    + apply Hf; assumption.
Qed.

Lemma aborts_quiet {A} (w : World) (m : M A) :
  (forall h, ~ In (EvDlsym h versionFunc) (trace m)) ->
  aborts_on_unsupported w m.
Proof. intros H h Hin. destruct (H h Hin). Qed.

Lemma aborts_createHalDevices
    (w : World) (devices : list device) (dll : string) (hint : Z) :
  aborts_on_unsupported w (createHalDevices w hal2 devices dll hint).
Proof.
  intros h' Hin Hv. rewrite createHalDevices_negotiation in *.
  destruct (dlopen w dll) as [h |].
  2:{ cbn in Hin. destruct Hin as [Hin | []]. discriminate. }
  cbv zeta in *. cbn [trace outcome fst snd] in *.
  unfold negotiation, probe_events, version_events in *.
  destruct (dlsym w h propeFunc) as [probe |].
  2:{ cbn in Hin. intuition discriminate. }
  cbv zeta in *.
  assert (Hh : negotiated_count hint probe <> 0 -> h' = h).
  { intros Hc. apply Z.eqb_neq in Hc. rewrite Hc in Hin.
    destruct (abi_version w h =? 1); [| destruct (abi_version w h =? 2)];
      destruct (to_unsigned hint =? 0), (dlsym w h versionFunc);
      cbn in Hin; intuition congruence. }
  destruct (negotiated_count hint probe =? 0) eqn:Hc.
  { destruct (to_unsigned hint =? 0); cbn in Hin; intuition discriminate. }
  assert (h' = h) by (apply Hh; intros E; rewrite E in Hc; discriminate).
  subst h'. unfold unsupported_version.
  destruct (abi_version w h =? 1); [reflexivity |].
  destruct (abi_version w h =? 2) eqn:H2; [| reflexivity].
  apply Z.eqb_eq in H2. contradiction.
Qed.

Ltac aborts_steps :=
  repeat first
    [ apply aborts_createHalDevices
    | apply aborts_quiet; intros ?; cbn; intuition discriminate
    | apply aborts_bind; [| intros ?]
    | match goal with
      | |- aborts_on_unsupported _ (if ?b then _ else _) => destruct b
      | |- aborts_on_unsupported _ (match ?x with _ => _ end) => destruct x
      end ].

Lemma aborts_load_core (w : World) (xrt : string) (devices : list device) :
  aborts_on_unsupported w (load_core w hal2 xrt devices).
Proof. unfold load_core, directoryOrError, isDLL. aborts_steps. Qed.

Lemma aborts_load_aws (w : World) (xrt : string) (devices : list device) :
  aborts_on_unsupported w (load_aws w hal2 xrt devices).
Proof. unfold load_aws, directoryOrError, isDLL. aborts_steps. Qed.

Lemma aborts_load_hwemu (w : World) (xrt : string) (devices : list device) :
  aborts_on_unsupported w (load_hwemu w hal2 xrt devices).
Proof. unfold load_hwemu, directoryOrError, isDLL. aborts_steps. Qed.

Lemma aborts_load_swemu (w : World) (xrt : string) (devices : list device) :
  aborts_on_unsupported w (load_swemu w hal2 xrt devices).
Proof. unfold load_swemu, directoryOrError, isDLL. aborts_steps. Qed.

(** C2: [loadDevices] has no handler.  Whenever one of its candidates
    reaches the version step with a library whose version is not 2, the call
    ends with the exception of that version and returns no device list,
    whatever was accumulated before.  In particular, when the primary driver
    has a device and version 1, the call ends in the primary block with
    "Legacy HAL version 1 not supported" and the secondary file is never
    examined. *)
Theorem loadDevices_unsupported_version_aborts (w : World) :
  (forall h,
      In (EvDlsym h versionFunc) (trace (loadDevices w hal2)) ->
      abi_version w h <> 2 ->
      outcome (loadDevices w hal2) = inl (unsupported_version w h))
  /\ (forall h probe,
      install_root w <> EmptyString -> isEmulationMode w = false ->
      fs_is_directory w (install_root w) = true ->
      isDLL_at w (install_root w // "lib/libxrt_core.so") = true ->
      dlopen w (install_root w // "lib/libxrt_core.so") = Some h ->
      dlsym w h propeFunc = Some probe ->
      to_unsigned probe <> 0 ->
      abi_version w h = 1 ->
      loadDevices w hal2
      = ((EvIsDirectory (install_root w)
          :: EvIsDLL primary (install_root w // "lib/libxrt_core.so")
          :: EvDlopen (install_root w // "lib/libxrt_core.so") RTLD_LAZY
          :: EvDlsym h propeFunc :: EvCall h propeFunc
          :: version_events w h ++ [EvDlclose h])%list,
         inl (runtime_error "Legacy HAL version 1 not supported"))
      /\ attempted secondary (trace (loadDevices w hal2)) = false
      /\ opens (trace (loadDevices w hal2)) = 1%nat).
Proof.
  split.
  - change (aborts_on_unsupported w (loadDevices w hal2)).
    rewrite loadDevices_stages.
    apply aborts_bind; [apply aborts_load_core | intros d0].
    apply aborts_bind; [apply aborts_load_aws | intros d1].
    apply aborts_bind; [apply aborts_load_hwemu | intros d2].
    apply aborts_bind; [apply aborts_load_swemu | intros d3].
    aborts_steps.
  - intros h probe Hroot Hemu Hdir Hfile Hopen Hprobe Hcount Hv.
    assert (E : loadDevices w hal2
                = ((EvIsDirectory (install_root w)
                    :: EvIsDLL primary (install_root w // "lib/libxrt_core.so")
                    :: EvDlopen (install_root w // "lib/libxrt_core.so") RTLD_LAZY
                    :: EvDlsym h propeFunc :: EvCall h propeFunc
                    :: version_events w h ++ [EvDlclose h])%list,
                   inl (runtime_error "Legacy HAL version 1 not supported"))).
    { rewrite loadDevices_stages.
      rewrite load_core_examined by auto using hardware_gate.
      unfold load_if_dll. rewrite Hfile, createHalDevices_negotiation, Hopen.
      cbv zeta. unfold negotiation. rewrite Hprobe. cbv zeta.
      unfold negotiated_count, probe_events.
      change (to_unsigned 0 =? 0) with true. cbv iota.
      apply Z.eqb_neq in Hcount. rewrite Hcount, Hv. reflexivity. }
    rewrite E. cbn [trace fst]. unfold version_events.
    destruct (dlsym w h versionFunc); repeat split; reflexivity.
Qed.

(** The sentinel "null" has no [.so] extension. *)
Lemma null_is_not_dll (w : World) : isDLL_at w "null" = false.
Proof. unfold isDLL_at. apply andb_false_r. Qed.

(** C8, amended: in emulation mode with an install root that is a
    directory, each emulation block starts with the directory check and the
    configuration; for the configuration "null", and only then, the default
    file is examined next, and when it is a shared library it is the driver
    that is loaded.  When both configurations are "null" and neither default
    file is a shared library, the two blocks leave the device list as it is
    and throw nothing, so [loadDevices] ends as its secondary block ends:
    with the devices of the secondary driver, or with the exception it
    raised. *)
Theorem emulation_defaults (w : World) :
  install_root w <> EmptyString ->
  isEmulationMode w = true ->
  fs_is_directory w (install_root w) = true ->
  let xrt := install_root w in
  (forall d, exists t t',
      trace (load_hwemu w hal2 xrt d)
      = (EvIsDirectory xrt :: EvConfig hw_emulation
         :: default_checks hw_emulation (get_hw_em_driver w)
              (xrt // "lib/libxrt_hwemu.so") ++ t)%list
      /\ trace (load_swemu w hal2 xrt d)
         = (EvIsDirectory xrt :: EvConfig sw_emulation
            :: default_checks sw_emulation (get_sw_em_driver w)
                 (xrt // "lib/libxrt_swemu.so") ++ t')%list)
  /\ (forall d,
      get_hw_em_driver w = "null" ->
      isDLL_at w (xrt // "lib/libxrt_hwemu.so") = true ->
      let c := createHalDevices w hal2 d (xrt // "lib/libxrt_hwemu.so") 0 in
      load_hwemu w hal2 xrt d
      = (EvIsDirectory xrt :: EvConfig hw_emulation
         :: EvIsDLL hw_emulation (xrt // "lib/libxrt_hwemu.so")
         :: EvIsDLL hw_emulation (xrt // "lib/libxrt_hwemu.so")
         :: trace c, outcome c))
  /\ (forall d,
      get_sw_em_driver w = "null" ->
      isDLL_at w (xrt // "lib/libxrt_swemu.so") = true ->
      let c := createHalDevices w hal2 d (xrt // "lib/libxrt_swemu.so") 0 in
      load_swemu w hal2 xrt d
      = (EvIsDirectory xrt :: EvConfig sw_emulation
         :: EvIsDLL sw_emulation (xrt // "lib/libxrt_swemu.so")
         :: EvIsDLL sw_emulation (xrt // "lib/libxrt_swemu.so")
         :: trace c, outcome c))
  /\ (get_hw_em_driver w = "null" -> get_sw_em_driver w = "null" ->
      isDLL_at w (xrt // "lib/libxrt_hwemu.so") = false ->
      isDLL_at w (xrt // "lib/libxrt_swemu.so") = false ->
      (forall d,
          load_hwemu w hal2 xrt d
          = (emulation_idle hw_emulation xrt "lib/libxrt_hwemu.so", inr d)
          /\ load_swemu w hal2 xrt d
             = (emulation_idle sw_emulation xrt "lib/libxrt_swemu.so", inr d))
      /\ (forall t d,
          load_aws w hal2 xrt [] = (t, inr d) ->
          loadDevices w hal2
          = ((t ++ emulation_idle hw_emulation xrt "lib/libxrt_hwemu.so"
                ++ emulation_idle sw_emulation xrt "lib/libxrt_swemu.so")%list,
             inr d))
      /\ (forall t e,
          load_aws w hal2 xrt [] = (t, inl e) ->
          loadDevices w hal2 = (t, inl e))).
Proof.
  intros Hroot Hemu Hdir xrt. subst xrt.
  set (xrt := install_root w) in *.
  assert (Hgate : negb (empty xrt) && isEmulationMode w = true)
    by (apply emulation_gate; assumption).
  split; [| split; [| split]].
  - intros d.
    rewrite (load_hwemu_examined w xrt d Hgate Hdir).
    rewrite (load_swemu_examined w xrt d Hgate Hdir).
    cbn [trace fst]. eexists. eexists. split; reflexivity.
  - intros d Hcfg Hfile c.
    rewrite (load_hwemu_examined w xrt d Hgate Hdir).
    unfold emulation_driver_path, default_checks, load_if_dll.
    rewrite Hcfg, Hfile. cbn [String.eqb Ascii.eqb Bool.eqb app]. rewrite Hfile.
    reflexivity.
  - intros d Hcfg Hfile c.
    rewrite (load_swemu_examined w xrt d Hgate Hdir).
    unfold emulation_driver_path, default_checks, load_if_dll.
    rewrite Hcfg, Hfile. cbn [String.eqb Ascii.eqb Bool.eqb app]. rewrite Hfile.
    reflexivity.
  - intros Hhw Hsw Hfhw Hfsw.
    assert (Eidle : forall d,
               load_hwemu w hal2 xrt d
               = (emulation_idle hw_emulation xrt "lib/libxrt_hwemu.so", inr d)
               /\ load_swemu w hal2 xrt d
                  = (emulation_idle sw_emulation xrt "lib/libxrt_swemu.so", inr d)).
    { intros d.
      rewrite (load_hwemu_examined w xrt d Hgate Hdir).
      rewrite (load_swemu_examined w xrt d Hgate Hdir).
      unfold emulation_driver_path, default_checks, load_if_dll.
      rewrite Hhw, Hsw, Hfhw, Hfsw.
      cbn [String.eqb Ascii.eqb Bool.eqb app]. rewrite null_is_not_dll.
      split; reflexivity. }
    split; [exact Eidle | split].
    + intros t d Haws. rewrite loadDevices_stages. fold xrt.
      rewrite load_core_skipped by (rewrite Hemu; apply andb_false_r).
      rewrite bind_value. cbn [trace outcome fst snd app]. rewrite Haws.
      rewrite bind_value. destruct (Eidle d) as [Ehw Esw]. rewrite Ehw.
      rewrite bind_value. rewrite Esw. rewrite bind_value.
      subst xrt. rewrite (empty_false _ Hroot). reflexivity.
    + intros t e Haws. rewrite loadDevices_stages. fold xrt.
      rewrite load_core_skipped by (rewrite Hemu; apply andb_false_r).
      rewrite bind_value. cbn [trace outcome fst snd app]. rewrite Haws.
      reflexivity.
Qed.

(** *** The loader of the XDP library *)

(** The constructor invokes [initXDPLib] as its last step: once when it
    completes, never when it throws. *)
Lemma xdp_once_loader_invocations (w : World) :
  match outcome (xdp_once_loader w) with
  | inr _ => invocations "initXDPLib" (trace (xdp_once_loader w)) = 1%nat
             /\ opens (trace (xdp_once_loader w)) = 1%nat
  | inl _ => invocations "initXDPLib" (trace (xdp_once_loader w)) = 0%nat
  end.
Proof.
  unfold xdp_once_loader, directoryOrError, isDLL.
  destruct (empty (emptyOrValue (getenv w "XILINX_XRT"))); [reflexivity |].
  destruct (fs_is_directory w _); [| reflexivity]. cbn [negb].
  destruct (isDLL_at w _); [| reflexivity]. cbn [negb].
  destruct (dlopen w _) as [h |]; [| reflexivity].
  destruct (dlsym w h "initXDPLib"); cbn; auto.
Qed.

Lemma load_xdp_calls_loaded (ws : list World) :
  load_xdp_calls ws true = ([], true).
Proof.
  induction ws as [| w ws IH]; [reflexivity |].
  cbn [load_xdp_calls load_xdp]. rewrite IH. reflexivity.
Qed.

Lemma invocations_app (name : string) (t u : list event) :
  invocations name (t ++ u) = (invocations name t + invocations name u)%nat.
Proof. unfold invocations. rewrite filter_app, length_app. reflexivity. Qed.

(** C9, amended: over any sequence of calls of [load_xdp] the entry point
    [initXDPLib] is invoked at most once.  A call that completes marks the
    static as initialized, and every later call does nothing: no library is
    opened and nothing is invoked.  A call that throws leaves the static not
    initialized, and the next call runs the whole initialization again. *)
Theorem load_xdp_once :
  (forall ws,
      (invocations "initXDPLib" (fst (load_xdp_calls ws false)) <= 1)%nat)
  /\ (forall w u,
      outcome (snd (load_xdp w false)) = inr u ->
      fst (load_xdp w false) = true
      /\ forall ws, load_xdp_calls ws (fst (load_xdp w false)) = ([], true))
  /\ (forall w e,
      outcome (snd (load_xdp w false)) = inl e ->
      fst (load_xdp w false) = false
      /\ forall w', snd (load_xdp w' (fst (load_xdp w false)))
                    = xdp_once_loader w').
Proof.
  split; [| split].
  - induction ws as [| w ws IH]; [cbn; lia |].
    cbn [load_xdp_calls]. unfold load_xdp at 1.
    pose proof (xdp_once_loader_invocations w) as Hinv.
    destruct (outcome (xdp_once_loader w)) as [e | u].
    + destruct (load_xdp_calls ws false) as [t final].
      cbn [fst] in *. rewrite invocations_app, Hinv. exact IH.
    + rewrite load_xdp_calls_loaded. cbn [fst].
      rewrite app_nil_r. destruct Hinv as [Hinv _]. rewrite Hinv. lia.
  - intros w u Hout. unfold load_xdp in *.
    destruct (outcome (xdp_once_loader w)) eqn:Hc; cbn [fst snd] in *.
    + rewrite Hc in Hout. discriminate.
    + split; [reflexivity | apply load_xdp_calls_loaded].
  - intros w e Hout. unfold load_xdp in *.
    destruct (outcome (xdp_once_loader w)) eqn:Hc; cbn [fst snd] in *.
    + split; [reflexivity |]. intros w'.
      destruct (outcome (xdp_once_loader w')); reflexivity.
    + rewrite Hc in Hout. discriminate.
Qed.

(** *** The install root that is not set *)

(** What [loadDevices] does without install root: it never returns a device
    list, and the primary and emulation blocks are skipped; but the
    secondary block runs first, on the relative path [lib/libxrt_aws.so].
    Only when that path is not a shared library is the check of the path the
    single event before "XILINX_XRT must be set". *)
Lemma loadDevices_root_unset (w : World) :
  install_root w = EmptyString ->
  (exists e, outcome (loadDevices w hal2) = inl e)
  /\ loadDevices w hal2
     = (d <- load_aws w hal2 EmptyString [] ;; throw root_not_set)
  /\ attempted secondary (trace (loadDevices w hal2)) = true
  /\ (isDLL_at w "lib/libxrt_aws.so" = false ->
      loadDevices w hal2
      = ([EvIsDLL secondary "lib/libxrt_aws.so"], inl root_not_set)).
Proof.
  intros Hroot.
  assert (E : loadDevices w hal2
              = (d <- load_aws w hal2 EmptyString [] ;; throw root_not_set)).
  { rewrite loadDevices_stages, Hroot.
    rewrite load_core_skipped by reflexivity. rewrite bind_value.
    cbn [trace outcome fst snd app].
    destruct (load_aws w hal2 EmptyString []) as [t [e | d]]; [reflexivity |].
    rewrite !bind_value.
    rewrite load_hwemu_skipped by reflexivity. rewrite bind_value.
    cbn [trace outcome fst snd app].
    rewrite load_swemu_skipped by reflexivity. rewrite bind_value.
    reflexivity. }
  split; [| split; [exact E | split]].
  - rewrite E, outcome_bind.
    destruct (outcome (load_aws w hal2 EmptyString [])) as [e | d];
      eexists; reflexivity.
  - rewrite E. unfold attempted. rewrite existsb_trace_bind.
    fold (attempted secondary (trace (load_aws w hal2 EmptyString []))).
    rewrite attempted_load_aws. reflexivity.
  - intros Hfile. rewrite E, load_aws_examined. cbv zeta.
    unfold load_if_dll.
    change (EmptyString // "lib/libxrt_aws.so") with "lib/libxrt_aws.so".
    rewrite Hfile. reflexivity.
Qed.

End Properties.

(** ** Further properties of the loader *)

Section Coverage.

Context {device : Type} (hal2 : string -> handle -> Z -> list device).

(** *** Invariants along [bind] *)

Lemma always_bind {A B} (P : event -> Prop) (m : M A) (f : A -> M B) :
  always P m -> (forall a, outcome m = inr a -> always P (f a)) ->
  always P (bind m f).
Proof.
  intros Hm Hf e Hin. rewrite trace_bind in Hin.
  destruct (outcome m) as [x | a] eqn:Hout.
  - apply Hm. exact Hin.
  - apply in_app_or in Hin. destruct Hin as [Hin | Hin].
    + apply Hm. exact Hin.
    + apply (Hf a eq_refl). exact Hin.
Qed.

Lemma always_Forall {A} (P : event -> Prop) (m : M A) :
  always P m <-> Forall P (trace m).
Proof. unfold always. symmetry. apply Forall_forall. Qed.

Lemma raises_only_bind {A B} (E : exn -> Prop) (m : M A) (f : A -> M B) :
  raises_only E m -> (forall a, outcome m = inr a -> raises_only E (f a)) ->
  raises_only E (bind m f).
Proof.
  intros Hm Hf e Hout. rewrite outcome_bind in Hout.
  destruct (outcome m) as [x | a] eqn:Hm'.
  - apply Hm. congruence.
  - apply (Hf a eq_refl). exact Hout.
Qed.

Lemma fatal_bind {A B} (reading : event -> option exn) (m : M A) (f : A -> M B) :
  fatal reading m -> (forall a, fatal reading (f a)) ->
  fatal reading (bind m f).
Proof.
  intros Hm Hf e x Hin Hx. rewrite trace_bind in Hin. rewrite outcome_bind.
  destruct (outcome m) as [y | a] eqn:Hout.
  - specialize (Hm e x Hin Hx). congruence.
  - apply in_app_or in Hin. destruct Hin as [Hin | Hin].
    + specialize (Hm e x Hin Hx). congruence.
    + apply (Hf a e x); assumption.
Qed.

(** *** The events of one negotiation *)

Ltac each_event :=
  cbn [trace fst app];
  repeat first [apply Forall_nil | apply Forall_cons];
  cbn [loader_event]; auto.


(** The events of [createHalDevices] on a file that passed [isDLL], with the
    zero hint of [loadDevices]. *)
Lemma createHalDevices_events
    (w : World) (devices : list device) (dll : string) :
  valid_candidate w dll ->
  always (loader_event w) (createHalDevices w hal2 devices dll 0).
Proof.
  intros Hfile. apply always_Forall. rewrite createHalDevices_negotiation.
  destruct (dlopen w dll) as [h |] eqn:Hopen.
  2:{ cbn [trace fst]. each_event; auto. }
  assert (Hv : validated w h) by (exists dll; auto).
  cbv zeta. unfold negotiation, negotiated_count, probe_events, version_events.
  change (to_unsigned 0 =? 0) with true. cbv iota.
  cbn [trace fst]. apply Forall_cons; [cbn; auto |].
  destruct (dlsym w h propeFunc) as [probe |] eqn:Hprobe.
  2:{ cbn. each_event; auto. }
  cbv zeta.
  assert (Hcall : loader_event w (EvCall h propeFunc)).
  { cbn. repeat split; auto. fold propeFunc. congruence. }
  destruct (to_unsigned probe =? 0) eqn:Hcount.
  { cbn. each_event; auto. }
  assert (Hver : Forall (loader_event w)
                   (EvDlsym h versionFunc
                    :: match dlsym w h versionFunc with
                       | Some _ => [EvCall h versionFunc]
                       | None => []
                       end)).
  { apply Forall_cons; [cbn; auto |].
    destruct (dlsym w h versionFunc) eqn:Hsym; each_event; repeat split; auto.
    fold versionFunc. congruence. }
  assert (Hpre : Forall (loader_event w)
                   ((EvDlsym h propeFunc :: [EvCall h propeFunc])
                    ++ EvDlsym h versionFunc
                    :: match dlsym w h versionFunc with
                       | Some _ => [EvCall h versionFunc]
                       | None => []
                       end)%list).
  { apply Forall_app. split; [| exact Hver].
    each_event; auto. }
  destruct (abi_version w h =? 1) eqn:H1.
  { cbn [trace fst]. apply Forall_app. split; [exact Hpre |].
    each_event; auto. }
  destruct (abi_version w h =? 2) eqn:H2; cbn [trace fst];
    apply Forall_app; (split; [exact Hpre |]).
  - apply Z.eqb_eq in H2. apply Z.eqb_neq in Hcount.
    each_event; auto.
    split; [exact Hfile | repeat split; auto]. exists probe. auto.
  - each_event; auto.
Qed.

Lemma empty_false_inv (s : string) : empty s = false -> s <> EmptyString.
Proof. destruct s; [discriminate | congruence]. Qed.

Lemma hardware_gate_inv (w : World) (xrt : string) :
  negb (empty xrt) && negb (isEmulationMode w) = true ->
  xrt <> EmptyString /\ isEmulationMode w = false.
Proof.
  intros H. apply andb_true_iff in H. destruct H as [Hx He].
  apply negb_true_iff in Hx, He. split; [apply empty_false_inv |]; assumption.
Qed.

Lemma emulation_gate_inv (w : World) (xrt : string) :
  negb (empty xrt) && isEmulationMode w = true ->
  xrt <> EmptyString /\ isEmulationMode w = true.
Proof.
  intros H. apply andb_true_iff in H. destruct H as [Hx He].
  apply negb_true_iff in Hx. split; [apply empty_false_inv |]; assumption.
Qed.

Lemma load_if_dll_events (w : World) (devices : list device) (p : string) :
  In p (candidate_paths w) ->
  always (loader_event w) (load_if_dll w hal2 devices p).
Proof.
  intros Hp. unfold load_if_dll. destruct (isDLL_at w p) eqn:Hfile.
  - apply createHalDevices_events. split; assumption.
  - apply always_Forall. apply Forall_nil.
Qed.

Lemma load_core_events (w : World) (devices : list device) :
  always (loader_event w) (load_core w hal2 (install_root w) devices).
Proof.
  apply always_Forall.
  destruct (negb (empty (install_root w)) && negb (isEmulationMode w)) eqn:Hgate.
  2:{ rewrite load_core_skipped by exact Hgate. apply Forall_nil. }
  destruct (hardware_gate_inv _ _ Hgate) as [Hroot Hemu].
  destruct (fs_is_directory w (install_root w)) eqn:Hdir.
  2:{ rewrite load_core_no_directory by assumption. each_event. }
  rewrite load_core_examined by assumption. cbv zeta. cbn [trace fst].
  apply Forall_cons; [cbn; auto |]. apply Forall_cons; [cbn; auto |].
  apply always_Forall, load_if_dll_events. cbn. auto.
Qed.

Lemma load_aws_events (w : World) (devices : list device) :
  always (loader_event w) (load_aws w hal2 (install_root w) devices).
Proof.
  apply always_Forall. destruct devices as [| x rest].
  2:{ rewrite load_aws_skipped by discriminate. apply Forall_nil. }
  rewrite load_aws_examined. cbv zeta. cbn [trace fst].
  apply Forall_cons; [cbn; auto |].
  apply always_Forall, load_if_dll_events. cbn. auto.
Qed.

Lemma load_hwemu_events (w : World) (devices : list device) :
  always (loader_event w) (load_hwemu w hal2 (install_root w) devices).
Proof.
  apply always_Forall.
  destruct (negb (empty (install_root w)) && isEmulationMode w) eqn:Hgate.
  2:{ rewrite load_hwemu_skipped by exact Hgate. apply Forall_nil. }
  destruct (emulation_gate_inv _ _ Hgate) as [Hroot Hemu].
  destruct (fs_is_directory w (install_root w)) eqn:Hdir.
  2:{ rewrite load_hwemu_no_directory by assumption. each_event. }
  rewrite load_hwemu_examined by assumption. cbv zeta. cbn [trace fst].
  apply Forall_cons; [cbn; auto |]. apply Forall_cons; [cbn; auto 10 |].
  apply Forall_app. split.
  - unfold default_checks.
    destruct (get_hw_em_driver w =? "null")%string eqn:Hcfg; [| apply Forall_nil].
    apply String.eqb_eq in Hcfg. each_event; auto 10.
  - unfold emulation_driver_path.
    destruct (get_hw_em_driver w =? "null")%string eqn:Hcfg.
    + apply String.eqb_eq in Hcfg.
      destruct (isDLL_at w _);
        (apply Forall_cons;
         [cbn; auto 10
         | apply always_Forall, load_if_dll_events; cbn; auto 10]).
    + apply Forall_cons;
        [cbn; auto 10
        | apply always_Forall, load_if_dll_events; cbn; auto 10].
Qed.

Lemma load_swemu_events (w : World) (devices : list device) :
  always (loader_event w) (load_swemu w hal2 (install_root w) devices).
Proof.
  apply always_Forall.
  destruct (negb (empty (install_root w)) && isEmulationMode w) eqn:Hgate.
  2:{ rewrite load_swemu_skipped by exact Hgate. apply Forall_nil. }
  destruct (emulation_gate_inv _ _ Hgate) as [Hroot Hemu].
  destruct (fs_is_directory w (install_root w)) eqn:Hdir.
  2:{ rewrite load_swemu_no_directory by assumption. each_event. }
  rewrite load_swemu_examined by assumption. cbv zeta. cbn [trace fst].
  apply Forall_cons; [cbn; auto |]. apply Forall_cons; [cbn; auto 10 |].
  apply Forall_app. split.
  - unfold default_checks.
    destruct (get_sw_em_driver w =? "null")%string eqn:Hcfg; [| apply Forall_nil].
    apply String.eqb_eq in Hcfg. each_event; auto 10.
  - unfold emulation_driver_path.
    destruct (get_sw_em_driver w =? "null")%string eqn:Hcfg.
    + apply String.eqb_eq in Hcfg.
      destruct (isDLL_at w _);
        (apply Forall_cons;
         [cbn; auto 10
         | apply always_Forall, load_if_dll_events; cbn; auto 10]).
    + apply Forall_cons;
        [cbn; auto 10
        | apply always_Forall, load_if_dll_events; cbn; auto 10].
Qed.

(** Every event of [loadDevices] is one of the loader's events. *)
Lemma loadDevices_events (w : World) :
  always (loader_event w) (loadDevices w hal2).
Proof.
  rewrite loadDevices_stages.
  apply always_bind; [apply load_core_events | intros d0 _].
  apply always_bind; [apply load_aws_events | intros d1 _].
  apply always_bind; [apply load_hwemu_events | intros d2 _].
  apply always_bind; [apply load_swemu_events | intros d3 _].
  apply always_Forall.
  destruct (empty (install_root w)); apply Forall_nil.
Qed.

(** *** What [loadDevices] opens, calls and hands on *)

Lemma isDLL_at_inv (w : World) (p : string) :
  isDLL_at w p = true ->
  fs_exists w p = true /\ fs_is_regular_file w p = true
  /\ extension p = ".so".
Proof.
  unfold isDLL_at. intros H.
  apply andb_true_iff in H. destruct H as [H Hext].
  apply andb_true_iff in H. destruct H as [Hex Hreg].
  apply String.eqb_eq in Hext. auto.
Qed.

(** X1: whatever the world, every library [loadDevices] opens is one of its
    six candidate paths (the four fixed files under the install root, the two
    configured emulation drivers), the path exists, is a regular file and has
    the extension [.so], and it is opened with [RTLD_LAZY]. *)
Theorem loadDevices_opens_only_valid_candidates
    (w : World) (dll : string) (b : binding) :
  In (EvDlopen dll b) (trace (loadDevices w hal2)) ->
  In dll (candidate_paths w)
  /\ fs_exists w dll = true /\ fs_is_regular_file w dll = true
  /\ extension dll = ".so"
  /\ b = RTLD_LAZY.
Proof.
  intros Hin. destruct (loadDevices_events w _ Hin) as [[Hc Hfile] Hb].
  destruct (isDLL_at_inv w dll Hfile) as [Hex [Hreg Hext]]. auto 10.
Qed.

(** X2: every call of [hal2::createDevices] made by [loadDevices] is for a
    valid candidate file, with the handle [dlopen] returned for that file,
    for a driver whose version is 2, and with a device count that is the
    result of the driver's probe and is not zero. *)
Theorem loadDevices_adapter_calls
    (w : World) (dll : string) (h : handle) (count : Z) :
  In (EvCreateDevices dll h count) (trace (loadDevices w hal2)) ->
  In dll (candidate_paths w)
  /\ isDLL_at w dll = true
  /\ dlopen w dll = Some h
  /\ abi_version w h = 2
  /\ (exists probe, dlsym w h propeFunc = Some probe /\ count = to_unsigned probe)
  /\ 0 < count < UINT_MODULUS.
Proof.
  intros Hin.
  destruct (loadDevices_events w _ Hin)
    as [[Hc Hfile] [Hopen [Hv [probe [Hprobe [Hcount Hnz]]]]]].
  repeat split; auto.
  - exists probe. auto.
  - assert (0 <= count < UINT_MODULUS).
    { subst count. unfold to_unsigned, UINT_MODULUS. apply Z.mod_pos_bound. lia. }
    lia.
  - subst count. unfold to_unsigned, UINT_MODULUS. apply Z.mod_pos_bound. lia.
Qed.

(** X3: [loadDevices] calls only [xclProbe] and [xclVersion], only in a
    library it opened from a valid candidate file, and only when [dlsym]
    resolved the entry point: no null function pointer is called. *)
Theorem loadDevices_calls_resolved_entry_points
    (w : World) (h : handle) (name : string) :
  In (EvCall h name) (trace (loadDevices w hal2)) ->
  (name = "xclProbe" \/ name = "xclVersion")
  /\ dlsym w h name <> None
  /\ exists dll,
      In dll (candidate_paths w) /\ isDLL_at w dll = true
      /\ dlopen w dll = Some h.
Proof.
  intros Hin.
  destruct (loadDevices_events w _ Hin) as [[dll [[Hc Hfile] Hopen]] [Hname Hsym]].
  repeat split; auto. exists dll. auto.
Qed.

Lemma attempted_inv (k : slot) (t : list event) :
  attempted k t = true -> exists p, In (EvIsDLL k p) t.
Proof.
  unfold attempted. intros H. apply existsb_exists in H.
  destruct H as [e [Hin He]]. destruct e; try discriminate.
  destruct k, k0; try discriminate; eauto.
Qed.

(** X4: the hardware candidate and the emulation candidates exclude each
    other.  A call of [loadDevices] that examines the primary file runs with
    emulation mode off; one that consults the emulation configuration or
    examines an emulation driver runs with emulation mode on; in both cases
    the install root is set and is a directory.  No call does both, the XDP
    library is never examined, and the only directory ever tested is the
    install root itself. *)
Theorem loadDevices_mode_exclusive (w : World) :
  let t := trace (loadDevices w hal2) in
  (attempted primary t = true ->
   isEmulationMode w = false /\ install_root w <> EmptyString
   /\ fs_is_directory w (install_root w) = true)
  /\ (attempted hw_emulation t = true \/ attempted sw_emulation t = true
      \/ (exists k, In (EvConfig k) t) ->
      isEmulationMode w = true /\ install_root w <> EmptyString
      /\ fs_is_directory w (install_root w) = true)
  /\ attempted primary t && (attempted hw_emulation t || attempted sw_emulation t)
     = false
  /\ attempted xdp t = false
  /\ (forall p, In (EvIsDirectory p) t -> p = install_root w).
Proof.
  intros t.
  assert (Hprim : attempted primary t = true ->
                  isEmulationMode w = false /\ install_root w <> EmptyString
                  /\ fs_is_directory w (install_root w) = true).
  { intros H. destruct (attempted_inv _ _ H) as [p Hin].
    destruct (loadDevices_events w _ Hin) as [_ Hrest]. exact Hrest. }
  assert (Hemu : attempted hw_emulation t = true \/ attempted sw_emulation t = true
                 \/ (exists k, In (EvConfig k) t) ->
                 isEmulationMode w = true /\ install_root w <> EmptyString
                 /\ fs_is_directory w (install_root w) = true).
  { intros [H | [H | [k Hin]]].
    - destruct (attempted_inv _ _ H) as [p Hin].
      destruct (loadDevices_events w _ Hin) as [_ Hrest]. exact Hrest.
    - destruct (attempted_inv _ _ H) as [p Hin].
      destruct (loadDevices_events w _ Hin) as [_ Hrest]. exact Hrest.
    - destruct (loadDevices_events w _ Hin) as [_ Hrest]. exact Hrest. }
  split; [exact Hprim | split; [exact Hemu | split; [| split]]].
  - destruct (attempted primary t) eqn:Hp; [| reflexivity].
    destruct (Hprim eq_refl) as [Hoff _].
    destruct (attempted hw_emulation t) eqn:Hh.
    { destruct Hemu as [Hon _]; [auto | congruence]. }
    destruct (attempted sw_emulation t) eqn:Hs; [| reflexivity].
    destruct Hemu as [Hon _]; [auto | congruence].
  - destruct (attempted xdp t) eqn:Hx; [| reflexivity].
    destruct (attempted_inv _ _ Hx) as [p Hin].
    destruct (loadDevices_events w _ Hin).
  - intros p Hin. destruct (loadDevices_events w _ Hin) as [Hp _]. exact Hp.
Qed.

(** *** Failures of [dlopen] *)

Lemma fatal_quiet {A} (reading : event -> option exn) (m : M A) :
  Forall (fun e => reading e = None) (trace m) -> fatal reading m.
Proof.
  intros H e x Hin Hx. rewrite Forall_forall in H.
  rewrite (H e Hin) in Hx. discriminate.
Qed.

Lemma fatal_createHalDevices
    (w : World) (devices : list device) (dll : string) (hint : Z) :
  fatal (open_failure w) (createHalDevices w hal2 devices dll hint).
Proof.
  rewrite createHalDevices_negotiation.
  destruct (dlopen w dll) as [h |] eqn:Hopen.
  - apply fatal_quiet. cbv zeta. cbn [trace fst].
    apply Forall_cons; [cbn; rewrite Hopen; reflexivity |].
    unfold negotiation, probe_events, version_events.
    destruct (dlsym w h propeFunc); [| repeat constructor].
    cbv zeta.
    destruct (negotiated_count hint z =? 0);
      [| destruct (abi_version w h =? 1); [| destruct (abi_version w h =? 2)]];
      destruct (to_unsigned hint =? 0), (dlsym w h versionFunc);
      repeat constructor.
  - intros e x [<- | []] Hx. cbn in Hx. rewrite Hopen in Hx.
    injection Hx as <-. reflexivity.
Qed.

Ltac fatal_steps :=
  repeat first
    [ apply fatal_createHalDevices
    | solve [apply fatal_quiet; cbn; repeat constructor]
    | apply fatal_bind; [| intros ?]
    | match goal with
      | |- fatal _ (if ?b then _ else _) => destruct b
      | |- fatal _ (match ?x with _ => _ end) => destruct x
      end ].

Lemma fatal_load_core (w : World) (xrt : string) (devices : list device) :
  fatal (open_failure w) (load_core w hal2 xrt devices).
Proof. unfold load_core, directoryOrError, isDLL. fatal_steps. Qed.

Lemma fatal_load_aws (w : World) (xrt : string) (devices : list device) :
  fatal (open_failure w) (load_aws w hal2 xrt devices).
Proof. unfold load_aws, directoryOrError, isDLL. fatal_steps. Qed.

Lemma fatal_load_hwemu (w : World) (xrt : string) (devices : list device) :
  fatal (open_failure w) (load_hwemu w hal2 xrt devices).
Proof. unfold load_hwemu, directoryOrError, isDLL. fatal_steps. Qed.

Lemma fatal_load_swemu (w : World) (xrt : string) (devices : list device) :
  fatal (open_failure w) (load_swemu w hal2 xrt devices).
Proof. unfold load_swemu, directoryOrError, isDLL. fatal_steps. Qed.

(** X5: a candidate file that passes [isDLL] and that [dlopen] then rejects
    is fatal for the whole call: [loadDevices] ends with "Failed to open HAL
    driver" for that path (with the text of [dlerror]) and returns no list;
    a primary file that fails to open also keeps the secondary file from
    being examined. *)
Theorem loadDevices_open_failure_fatal
    (w : World) (dll : string) (b : binding) :
  In (EvDlopen dll b) (trace (loadDevices w hal2)) ->
  dlopen w dll = None ->
  outcome (loadDevices w hal2) = inl (open_error w dll)
  /\ (dll = install_root w // "lib/libxrt_core.so" ->
      attempted primary (trace (loadDevices w hal2)) = true ->
      attempted secondary (trace (loadDevices w hal2)) = false).
Proof.
  intros Hin Hopen.
  assert (Hfatal : fatal (open_failure w) (loadDevices w hal2)).
  { rewrite loadDevices_stages.
    apply fatal_bind; [apply fatal_load_core | intros d0].
    apply fatal_bind; [apply fatal_load_aws | intros d1].
    apply fatal_bind; [apply fatal_load_hwemu | intros d2].
    apply fatal_bind; [apply fatal_load_swemu | intros d3].
    fatal_steps. }
  split.
  - apply (Hfatal (EvDlopen dll b)); [exact Hin |].
    cbn. rewrite Hopen. reflexivity.
  - intros Hdll Hprim.
    destruct (attempted_inv _ _ Hprim) as [p Hp].
    destruct (loadDevices_events w _ Hp) as [_ [Hemu [Hroot Hdir]]].
    pose proof (loadDevices_events w _ Hin) as [[_ Hfile] _].
    rewrite loadDevices_stages.
    rewrite load_core_examined by auto using hardware_gate.
    cbv zeta. unfold load_if_dll. rewrite <- Hdll, Hfile.
    rewrite createHalDevices_negotiation, Hopen. reflexivity.
Qed.

(** *** The exceptions of [loadDevices] *)

Lemma empty_true_inv (s : string) : empty s = true -> s = EmptyString.
Proof. destruct s; [reflexivity | discriminate]. Qed.

Lemma raises_only_value {A} (E : exn -> Prop) (t : list event) (a : A) :
  raises_only E (t, inr a).
Proof. intros e H. discriminate. Qed.

Lemma createHalDevices_raises
    (w : World) (devices : list device) (dll : string) :
  valid_candidate w dll ->
  raises_only (loader_error w) (createHalDevices w hal2 devices dll 0).
Proof.
  intros Hvalid e. rewrite createHalDevices_negotiation.
  destruct (dlopen w dll) as [h |] eqn:Hopen.
  2:{ cbn. intros H. injection H as <-. right. left. exists dll. auto. }
  assert (Hv : validated w h) by (exists dll; auto).
  cbv zeta. cbn [outcome snd]. unfold negotiation.
  destruct (dlsym w h propeFunc); [| discriminate]. cbv zeta.
  destruct (negotiated_count 0 z =? 0); [discriminate |].
  destruct (abi_version w h =? 1) eqn:H1.
  { intros H. injection H as <-. right. right. left. exists h.
    apply Z.eqb_eq in H1. repeat split; [exact Hv | lia |].
    unfold unsupported_version. rewrite H1. reflexivity. }
  destruct (abi_version w h =? 2) eqn:H2; [discriminate |].
  intros H. injection H as <-. right. right. left. exists h.
  apply Z.eqb_neq in H2. repeat split; [exact Hv | exact H2 |].
  unfold unsupported_version. rewrite H1. reflexivity.
Qed.

Lemma load_if_dll_raises (w : World) (devices : list device) (p : string) :
  In p (candidate_paths w) ->
  raises_only (loader_error w) (load_if_dll w hal2 devices p).
Proof.
  intros Hp. unfold load_if_dll. destruct (isDLL_at w p) eqn:Hfile.
  - apply createHalDevices_raises. split; assumption.
  - apply raises_only_value.
Qed.

Lemma directory_error_raises (w : World) (t : list event) (A : Type) :
  install_root w <> EmptyString ->
  fs_is_directory w (install_root w) = false ->
  @raises_only A (loader_error w)
    (t, inl (runtime_error ("No such directory '" ++ install_root w ++ "'"))).
Proof.
  intros Hroot Hdir e H. injection H as <-. left. auto.
Qed.

Lemma load_core_raises (w : World) (devices : list device) :
  raises_only (loader_error w) (load_core w hal2 (install_root w) devices).
Proof.
  destruct (negb (empty (install_root w)) && negb (isEmulationMode w)) eqn:Hgate.
  2:{ rewrite load_core_skipped by exact Hgate. apply raises_only_value. }
  destruct (hardware_gate_inv _ _ Hgate) as [Hroot Hemu].
  destruct (fs_is_directory w (install_root w)) eqn:Hdir.
  2:{ rewrite load_core_no_directory by assumption.
      apply directory_error_raises; assumption. }
  rewrite load_core_examined by assumption. cbv zeta.
  intros e H. apply (load_if_dll_raises w devices
                       (install_root w // "lib/libxrt_core.so")); [cbn; auto |].
  exact H.
Qed.

Lemma load_aws_raises (w : World) (devices : list device) :
  raises_only (loader_error w) (load_aws w hal2 (install_root w) devices).
Proof.
  destruct devices as [| x rest].
  2:{ rewrite load_aws_skipped by discriminate. apply raises_only_value. }
  rewrite load_aws_examined. cbv zeta.
  intros e H. apply (load_if_dll_raises w []
                       (install_root w // "lib/libxrt_aws.so")); [cbn; auto |].
  exact H.
Qed.

Lemma emulation_driver_path_candidate_hw (w : World) :
  In (emulation_driver_path w (get_hw_em_driver w)
        (install_root w // "lib/libxrt_hwemu.so")) (candidate_paths w).
Proof.
  unfold emulation_driver_path.
  destruct (get_hw_em_driver w =? "null")%string; [| cbn; auto 10].
  destruct (isDLL_at w _); cbn; auto 10.
Qed.

Lemma emulation_driver_path_candidate_sw (w : World) :
  In (emulation_driver_path w (get_sw_em_driver w)
        (install_root w // "lib/libxrt_swemu.so")) (candidate_paths w).
Proof.
  unfold emulation_driver_path.
  destruct (get_sw_em_driver w =? "null")%string; [| cbn; auto 10].
  destruct (isDLL_at w _); cbn; auto 10.
Qed.

Lemma load_hwemu_raises (w : World) (devices : list device) :
  raises_only (loader_error w) (load_hwemu w hal2 (install_root w) devices).
Proof.
  destruct (negb (empty (install_root w)) && isEmulationMode w) eqn:Hgate.
  2:{ rewrite load_hwemu_skipped by exact Hgate. apply raises_only_value. }
  destruct (emulation_gate_inv _ _ Hgate) as [Hroot Hemu].
  destruct (fs_is_directory w (install_root w)) eqn:Hdir.
  2:{ rewrite load_hwemu_no_directory by assumption.
      apply directory_error_raises; assumption. }
  rewrite load_hwemu_examined by assumption. cbv zeta.
  intros e H. eapply load_if_dll_raises;
                [apply emulation_driver_path_candidate_hw | exact H].
Qed.

Lemma load_swemu_raises (w : World) (devices : list device) :
  raises_only (loader_error w) (load_swemu w hal2 (install_root w) devices).
Proof.
  destruct (negb (empty (install_root w)) && isEmulationMode w) eqn:Hgate.
  2:{ rewrite load_swemu_skipped by exact Hgate. apply raises_only_value. }
  destruct (emulation_gate_inv _ _ Hgate) as [Hroot Hemu].
  destruct (fs_is_directory w (install_root w)) eqn:Hdir.
  2:{ rewrite load_swemu_no_directory by assumption.
      apply directory_error_raises; assumption. }
  rewrite load_swemu_examined by assumption. cbv zeta.
  intros e H. eapply load_if_dll_raises;
                [apply emulation_driver_path_candidate_sw | exact H].
Qed.

Lemma loadDevices_raises (w : World) :
  raises_only (loader_error w) (loadDevices w hal2).
Proof.
  rewrite loadDevices_stages.
  apply raises_only_bind; [apply load_core_raises | intros d0 _].
  apply raises_only_bind; [apply load_aws_raises | intros d1 _].
  apply raises_only_bind; [apply load_hwemu_raises | intros d2 _].
  apply raises_only_bind; [apply load_swemu_raises | intros d3 _].
  destruct (empty (install_root w)) eqn:Hempty.
  - intros x Hx. injection Hx as <-. right. right. right.
    split; [apply empty_true_inv; exact Hempty | reflexivity].
  - apply raises_only_value.
Qed.


(** *** Handles are closed or handed on *)

Lemma acquisitions_app (w : World) (h : handle) (t u : list event) :
  acquisitions w h (t ++ u) = (acquisitions w h t + acquisitions w h u)%nat.
Proof. unfold acquisitions. rewrite filter_app, length_app. reflexivity. Qed.

Lemma closes_app (h : handle) (t u : list event) :
  closes h (t ++ u) = (closes h t + closes h u)%nat.
Proof. unfold closes. rewrite filter_app, length_app. reflexivity. Qed.

Lemma releases_app (h : handle) (t u : list event) :
  releases h (t ++ u) = (releases h t + releases h u)%nat.
Proof. unfold releases. rewrite filter_app, length_app. reflexivity. Qed.

Lemma settled_app (w : World) (h : handle) (t u : list event) :
  settled w h t -> settled w h u -> settled w h (t ++ u).
Proof.
  unfold settled. intros Ht Hu.
  rewrite acquisitions_app, closes_app, releases_app. lia.
Qed.

Lemma settled_bind {A B} (w : World) (h : handle) (m : M A) (f : A -> M B) :
  settled w h (trace m) -> (forall a, settled w h (trace (f a))) ->
  settled w h (trace (bind m f)).
Proof.
  intros Hm Hf. rewrite trace_bind. destruct (outcome m); [exact Hm |].
  apply settled_app; [exact Hm | apply Hf].
Qed.

Lemma settled_createHalDevices
    (w : World) (h : handle) (devices : list device) (dll : string) (hint : Z) :
  settled w h (trace (createHalDevices w hal2 devices dll hint)).
Proof.
  rewrite createHalDevices_negotiation.
  destruct (dlopen w dll) as [h0 |] eqn:Hopen.
  2:{ unfold settled, acquisitions. cbn. rewrite Hopen. reflexivity. }
  cbv zeta. cbn [trace fst].
  unfold negotiation, probe_events, version_events.
  destruct (dlsym w h0 propeFunc).
  2:{ unfold settled, acquisitions, closes, releases. cbn. rewrite Hopen.
      destruct (h =? h0); reflexivity. }
  cbv zeta.
  destruct (negotiated_count hint z =? 0);
    [| destruct (abi_version w h0 =? 1); [| destruct (abi_version w h0 =? 2)]];
    destruct (to_unsigned hint =? 0), (dlsym w h0 versionFunc);
    unfold settled, acquisitions, closes, releases; cbn; rewrite Hopen;
    destruct (h =? h0); reflexivity.
Qed.

Ltac settled_steps :=
  repeat first
    [ apply settled_createHalDevices
    | reflexivity
    | apply settled_bind; [| intros ?]
    | match goal with
      | |- settled _ _ (trace (if ?b then _ else _)) => destruct b
      | |- settled _ _ (trace (match ?x with _ => _ end)) => destruct x
      end ].

Lemma settled_load_core (w : World) (h : handle) xrt (devices : list device) :
  settled w h (trace (load_core w hal2 xrt devices)).
Proof. unfold load_core, directoryOrError, isDLL. settled_steps. Qed.

Lemma settled_load_aws (w : World) (h : handle) xrt (devices : list device) :
  settled w h (trace (load_aws w hal2 xrt devices)).
Proof. unfold load_aws, directoryOrError, isDLL. settled_steps. Qed.

Lemma settled_load_hwemu (w : World) (h : handle) xrt (devices : list device) :
  settled w h (trace (load_hwemu w hal2 xrt devices)).
Proof. unfold load_hwemu, directoryOrError, isDLL. settled_steps. Qed.

Lemma settled_load_swemu (w : World) (h : handle) xrt (devices : list device) :
  settled w h (trace (load_swemu w hal2 xrt devices)).
Proof. unfold load_swemu, directoryOrError, isDLL. settled_steps. Qed.

(** X7: [loadDevices] leaks no library handle.  In every world and on every
    path, the exceptional ones included, each handle is closed or released
    to the adapter exactly as often as [dlopen] returned it. *)
Theorem loadDevices_settles_handles (w : World) (h : handle) :
  let t := trace (loadDevices w hal2) in
  acquisitions w h t = (closes h t + releases h t)%nat.
Proof.
  cbv zeta. change (settled w h (trace (loadDevices w hal2))).
  rewrite loadDevices_stages.
  apply settled_bind; [apply settled_load_core | intros d0].
  apply settled_bind; [apply settled_load_aws | intros d1].
  apply settled_bind; [apply settled_load_hwemu | intros d2].
  apply settled_bind; [apply settled_load_swemu | intros d3].
  destruct (empty (install_root w)); reflexivity.
Qed.

(** *** The device list is what the adapter constructed *)

Lemma created_app (t u : list event) :
  created hal2 (t ++ u) = (created hal2 t ++ created hal2 u)%list.
Proof. unfold created. apply flat_map_app. Qed.

Lemma extends_bind (base : list device) (m : M (list device))
    (f : list device -> M (list device)) :
  extends hal2 base m -> (forall d0, extends hal2 d0 (f d0)) -> extends hal2 base (bind m f).
Proof.
  intros Hm Hf d Hout. rewrite outcome_bind in Hout. rewrite trace_bind.
  destruct (outcome m) as [x | d0] eqn:Hm'; [discriminate |].
  rewrite created_app, app_assoc, <- (Hm d0 Hm').
  apply Hf. exact Hout.
Qed.

Lemma extends_quiet (base : list device) (t : list event) :
  created hal2 t = [] -> extends hal2 base (t, inr base).
Proof.
  intros Ht d H. injection H as <-. cbn [trace fst]. rewrite Ht, app_nil_r.
  reflexivity.
Qed.

Lemma extends_exception (base : list device) (t : list event) (e : exn) :
  extends hal2 base (t, inl e).
Proof. intros d H. discriminate. Qed.

Lemma extends_createHalDevices
    (w : World) (devices : list device) (dll : string) (hint : Z) :
  extends hal2 devices (createHalDevices w hal2 devices dll hint).
Proof.
  rewrite createHalDevices_negotiation.
  destruct (dlopen w dll) as [h |]; [| apply extends_exception].
  cbv zeta. unfold negotiation, probe_events, version_events.
  destruct (dlsym w h propeFunc); [| intros d H; injection H as <-;
                                     cbn; rewrite app_nil_r; reflexivity].
  cbv zeta.
  destruct (negotiated_count hint z =? 0);
    [| destruct (abi_version w h =? 1); [| destruct (abi_version w h =? 2)]];
    destruct (to_unsigned hint =? 0), (dlsym w h versionFunc);
    intros d H; cbn in H; try discriminate; injection H as <-;
    cbn; rewrite ?app_nil_r; reflexivity.
Qed.

Lemma extends_load_if_dll (w : World) (devices : list device) (p : string) :
  extends hal2 devices (load_if_dll w hal2 devices p).
Proof.
  unfold load_if_dll. destruct (isDLL_at w p).
  - apply extends_createHalDevices.
  - apply extends_quiet. reflexivity.
Qed.

Lemma extends_checked (base : list device) (t : list event)
    (c : M (list device)) :
  created hal2 t = [] -> extends hal2 base c ->
  extends hal2 base ((t ++ trace c)%list, outcome c).
Proof.
  intros Ht Hc d H. cbn [trace fst outcome snd] in *.
  rewrite created_app, Ht. apply Hc. exact H.
Qed.

Lemma extends_load_core (w : World) (xrt : string) (devices : list device) :
  extends hal2 devices (load_core w hal2 xrt devices).
Proof.
  destruct (negb (empty xrt) && negb (isEmulationMode w)) eqn:Hgate.
  2:{ rewrite load_core_skipped by exact Hgate. apply extends_quiet. reflexivity. }
  destruct (fs_is_directory w xrt) eqn:Hdir.
  2:{ rewrite load_core_no_directory by assumption. apply extends_exception. }
  rewrite load_core_examined by assumption. cbv zeta.
  apply (extends_checked devices [EvIsDirectory xrt; EvIsDLL primary _]);
    [reflexivity | apply extends_load_if_dll].
Qed.

Lemma extends_load_aws (w : World) (xrt : string) (devices : list device) :
  extends hal2 devices (load_aws w hal2 xrt devices).
Proof.
  destruct devices as [| x rest].
  2:{ rewrite load_aws_skipped by discriminate. apply extends_quiet. reflexivity. }
  rewrite load_aws_examined. cbv zeta.
  apply (extends_checked [] [EvIsDLL secondary _]);
    [reflexivity | apply extends_load_if_dll].
Qed.

Lemma created_default_checks (k : slot) (configured default : string) :
  created hal2 (default_checks k configured default) = [].
Proof.
  unfold default_checks. destruct (configured =? "null")%string; reflexivity.
Qed.

Lemma extends_load_hwemu (w : World) (xrt : string) (devices : list device) :
  extends hal2 devices (load_hwemu w hal2 xrt devices).
Proof.
  destruct (negb (empty xrt) && isEmulationMode w) eqn:Hgate.
  2:{ rewrite load_hwemu_skipped by exact Hgate. apply extends_quiet. reflexivity. }
  destruct (fs_is_directory w xrt) eqn:Hdir.
  2:{ rewrite load_hwemu_no_directory by assumption. apply extends_exception. }
  rewrite load_hwemu_examined by assumption. cbv zeta.
  intros d H. cbn [trace fst outcome snd] in *.
  change (EvIsDirectory xrt :: EvConfig hw_emulation :: ?t)
    with ([EvIsDirectory xrt; EvConfig hw_emulation] ++ t)%list.
  rewrite !created_app, created_default_checks.
  apply extends_load_if_dll in H. exact H.
Qed.

Lemma extends_load_swemu (w : World) (xrt : string) (devices : list device) :
  extends hal2 devices (load_swemu w hal2 xrt devices).
Proof.
  destruct (negb (empty xrt) && isEmulationMode w) eqn:Hgate.
  2:{ rewrite load_swemu_skipped by exact Hgate. apply extends_quiet. reflexivity. }
  destruct (fs_is_directory w xrt) eqn:Hdir.
  2:{ rewrite load_swemu_no_directory by assumption. apply extends_exception. }
  rewrite load_swemu_examined by assumption. cbv zeta.
  intros d H. cbn [trace fst outcome snd] in *.
  change (EvIsDirectory xrt :: EvConfig sw_emulation :: ?t)
    with ([EvIsDirectory xrt; EvConfig sw_emulation] ++ t)%list.
  rewrite !created_app, created_default_checks.
  apply extends_load_if_dll in H. exact H.
Qed.

Lemma loadDevices_extends (w : World) :
  extends hal2 [] (loadDevices w hal2).
Proof.
  rewrite loadDevices_stages.
  apply extends_bind; [apply extends_load_core | intros d0].
  apply extends_bind; [apply extends_load_aws | intros d1].
  apply extends_bind; [apply extends_load_hwemu | intros d2].
  apply extends_bind; [apply extends_load_swemu | intros d3].
  destruct (empty (install_root w));
    [apply extends_exception | apply extends_quiet; reflexivity].
Qed.

(** X8: the list [loadDevices] returns is exactly what the adapter
    constructed during the call, call after call in the order of the calls:
    nothing is dropped, repeated or reordered, and no device comes from
    elsewhere. *)
Theorem loadDevices_returns_created (w : World) (devices : list device) :
  outcome (loadDevices w hal2) = inr devices ->
  devices = created hal2 (trace (loadDevices w hal2)).
Proof.
  intros Hout. apply (loadDevices_extends w devices Hout).
Qed.

(** *** The hardware drivers *)

Lemma version_events_v2 (w : World) (h : handle) :
  abi_version w h = 2 ->
  version_events w h = [EvDlsym h versionFunc; EvCall h versionFunc].
Proof.
  unfold abi_version, version_events.
  destruct (dlsym w h versionFunc); [reflexivity | discriminate].
Qed.

(** [createHalDevices] on a version-2 driver that probes devices, with the
    zero hint of [loadDevices]. *)
Lemma createHalDevices_v2
    (w : World) (devices : list device) (dll : string) (h : handle) (probe : Z) :
  dlopen w dll = Some h ->
  dlsym w h propeFunc = Some probe ->
  to_unsigned probe <> 0 ->
  abi_version w h = 2 ->
  createHalDevices w hal2 devices dll 0
  = ([EvDlopen dll RTLD_LAZY; EvDlsym h propeFunc; EvCall h propeFunc;
      EvDlsym h versionFunc; EvCall h versionFunc;
      EvRelease h; EvCreateDevices dll h (to_unsigned probe)],
     inr (devices ++ hal2 dll h (to_unsigned probe))%list).
Proof.
  intros Hopen Hprobe Hcount Hv.
  rewrite createHalDevices_negotiation, Hopen. cbv zeta.
  unfold negotiation, negotiated_count, probe_events.
  rewrite Hprobe. change (to_unsigned 0 =? 0) with true. cbv iota zeta.
  apply Z.eqb_neq in Hcount. rewrite Hcount, Hv, (version_events_v2 w h Hv).
  reflexivity.
Qed.

(** X9: with emulation mode off and an install root that is a directory, a
    primary driver of version 2 that probes [n > 0] devices is opened,
    released to the adapter with the count [n] and never closed.  When the
    adapter returns at least one device, [loadDevices] returns exactly the
    adapter's devices and examines no other file.  When the adapter returns
    no device, the secondary file is examined all the same: the fallback
    depends on the devices returned, not on the count probed. *)
Theorem loadDevices_primary_driver
    (w : World) (h : handle) (probe : Z) :
  install_root w <> EmptyString ->
  isEmulationMode w = false ->
  fs_is_directory w (install_root w) = true ->
  let core := install_root w // "lib/libxrt_core.so" in
  let n := to_unsigned probe in
  isDLL_at w core = true ->
  dlopen w core = Some h ->
  dlsym w h propeFunc = Some probe ->
  n <> 0 ->
  abi_version w h = 2 ->
  let t := [EvIsDirectory (install_root w); EvIsDLL primary core;
            EvDlopen core RTLD_LAZY; EvDlsym h propeFunc; EvCall h propeFunc;
            EvDlsym h versionFunc; EvCall h versionFunc;
            EvRelease h; EvCreateDevices core h n] in
  load_core w hal2 (install_root w) [] = (t, inr (hal2 core h n))
  /\ (hal2 core h n <> [] ->
      loadDevices w hal2 = (t, inr (hal2 core h n)))
  /\ (hal2 core h n = [] ->
      attempted secondary (trace (loadDevices w hal2)) = true).
Proof.
  intros Hroot Hemu Hdir core n Hfile Hopen Hprobe Hcount Hv t.
  assert (Ecore : load_core w hal2 (install_root w) [] = (t, inr (hal2 core h n))).
  { rewrite load_core_examined by auto using hardware_gate.
    cbv zeta. unfold load_if_dll. fold core. rewrite Hfile.
    rewrite (createHalDevices_v2 w [] core h probe) by assumption.
    reflexivity. }
  assert (Hoff : negb (empty (install_root w)) && isEmulationMode w = false)
    by (rewrite Hemu; apply andb_false_r).
  split; [exact Ecore | split].
  - intros Hsome. rewrite loadDevices_stages, Ecore, bind_value.
    cbn [outcome snd trace fst].
    rewrite load_aws_skipped by exact Hsome. rewrite bind_value.
    cbn [outcome snd trace fst].
    rewrite load_hwemu_skipped by exact Hoff. rewrite bind_value.
    cbn [outcome snd trace fst].
    rewrite load_swemu_skipped by exact Hoff. rewrite bind_value.
    rewrite (empty_false _ Hroot). cbn [outcome snd trace fst throw ret].
    rewrite !app_nil_r. reflexivity.
  - intros Hnone. rewrite loadDevices_stages, Ecore, Hnone.
    unfold attempted. rewrite existsb_trace_bind. cbn [outcome snd].
    rewrite existsb_trace_bind.
    fold (attempted secondary (trace (load_aws w hal2 (install_root w) []))).
    rewrite attempted_load_aws. rewrite orb_true_r. reflexivity.
Qed.

(** X10: with emulation mode off and an install root that is set, when the
    primary block ends without a device (no file, not a driver, no device
    probed) and the secondary driver has version 2 and probes [n > 0]
    devices, [loadDevices] returns exactly the devices the adapter
    constructs for the secondary driver. *)
Theorem loadDevices_secondary_fallback
    (w : World) (t : list event) (h : handle) (probe : Z) :
  install_root w <> EmptyString ->
  isEmulationMode w = false ->
  load_core w hal2 (install_root w) [] = (t, inr []) ->
  let aws := install_root w // "lib/libxrt_aws.so" in
  let n := to_unsigned probe in
  isDLL_at w aws = true ->
  dlopen w aws = Some h ->
  dlsym w h propeFunc = Some probe ->
  n <> 0 ->
  abi_version w h = 2 ->
  loadDevices w hal2
  = ((t ++ [EvIsDLL secondary aws;
            EvDlopen aws RTLD_LAZY; EvDlsym h propeFunc; EvCall h propeFunc;
            EvDlsym h versionFunc; EvCall h versionFunc;
            EvRelease h; EvCreateDevices aws h n])%list,
     inr (hal2 aws h n)).
Proof.
  intros Hroot Hemu Hcore aws n Hfile Hopen Hprobe Hcount Hv.
  assert (Hoff : negb (empty (install_root w)) && isEmulationMode w = false)
    by (rewrite Hemu; apply andb_false_r).
  rewrite loadDevices_stages, Hcore, bind_value. cbn [outcome snd trace fst].
  rewrite load_aws_examined. cbv zeta. unfold load_if_dll. fold aws.
  rewrite Hfile, (createHalDevices_v2 w [] aws h probe) by assumption.
  cbn [outcome snd trace fst app]. rewrite bind_value.
  rewrite load_hwemu_skipped by exact Hoff. rewrite bind_value.
  cbn [outcome snd trace fst].
  rewrite load_swemu_skipped by exact Hoff. rewrite bind_value.
  rewrite (empty_false _ Hroot). cbn [outcome snd trace fst throw ret].
  rewrite !app_nil_r. reflexivity.
Qed.

(** *** Configured emulation drivers *)

Lemma not_null (s : string) : s <> "null" -> (s =? "null")%string = false.
Proof. intros H. apply String.eqb_neq. exact H. Qed.

(** X11: in emulation mode with an install root that is a directory, a
    configured emulation driver (a configuration other than "null") replaces
    the default file altogether: the block examines the configured path and
    nothing else.  When that path is a shared library it is the driver that
    is loaded; when it is not, the block contributes nothing and throws
    nothing, and the default file is not tried in its place. *)
Theorem emulation_override
    (w : World) (devices : list device) :
  install_root w <> EmptyString ->
  isEmulationMode w = true ->
  fs_is_directory w (install_root w) = true ->
  let xrt := install_root w in
  (get_hw_em_driver w <> "null" ->
   let p := get_hw_em_driver w in
   (isDLL_at w p = true ->
    let c := createHalDevices w hal2 devices p 0 in
    load_hwemu w hal2 xrt devices
    = (EvIsDirectory xrt :: EvConfig hw_emulation :: EvIsDLL hw_emulation p
       :: trace c, outcome c))
   /\ (isDLL_at w p = false ->
       load_hwemu w hal2 xrt devices
       = ([EvIsDirectory xrt; EvConfig hw_emulation; EvIsDLL hw_emulation p],
          inr devices)))
  /\ (get_sw_em_driver w <> "null" ->
      let p := get_sw_em_driver w in
      (isDLL_at w p = true ->
       let c := createHalDevices w hal2 devices p 0 in
       load_swemu w hal2 xrt devices
       = (EvIsDirectory xrt :: EvConfig sw_emulation :: EvIsDLL sw_emulation p
          :: trace c, outcome c))
      /\ (isDLL_at w p = false ->
          load_swemu w hal2 xrt devices
          = ([EvIsDirectory xrt; EvConfig sw_emulation; EvIsDLL sw_emulation p],
             inr devices))).
Proof.
  intros Hroot Hemu Hdir xrt. subst xrt.
  assert (Hgate : negb (empty (install_root w)) && isEmulationMode w = true)
    by (apply emulation_gate; assumption).
  split.
  - intros Hcfg p. subst p.
    rewrite (load_hwemu_examined hal2 w (install_root w) devices Hgate Hdir).
    cbv zeta. unfold emulation_driver_path, default_checks, load_if_dll.
    rewrite (not_null _ Hcfg). cbn [app].
    split; intros Hfile; rewrite Hfile; reflexivity.
  - intros Hcfg p. subst p.
    rewrite (load_swemu_examined hal2 w (install_root w) devices Hgate Hdir).
    cbv zeta. unfold emulation_driver_path, default_checks, load_if_dll.
    rewrite (not_null _ Hcfg). cbn [app].
    split; intros Hfile; rewrite Hfile; reflexivity.
Qed.

(** *** The extension test on the fixed paths *)

Lemma has_separator_app (s t : string) :
  existsb is_separator (list_ascii_of_string t) = true ->
  existsb is_separator (list_ascii_of_string (s ++ t)) = true.
Proof.
  intros Ht. induction s as [| c s IH]; [exact Ht |].
  cbn. rewrite IH. apply orb_true_r.
Qed.

(** The file name of a path is decided by what follows its last
    separator. *)
Lemma filename_app (s t : string) :
  existsb is_separator (list_ascii_of_string t) = true ->
  filename (s ++ t) = filename t.
Proof.
  intros Ht. induction s as [| c s IH]; [reflexivity |].
  cbn [append filename]. rewrite (has_separator_app s t Ht). exact IH.
Qed.

Lemma path_append_suffix (p q : string) :
  exists s, p // q = s ++ q.
Proof.
  unfold path_append. destruct q as [| c q]; [exists p |].
  - induction p as [| a p IH]; [reflexivity | cbn; f_equal; exact IH].
  - destruct (is_separator c); [exists p; reflexivity |].
    destruct (last_char p) as [l |]; [| exists EmptyString; reflexivity].
    destruct (is_separator l); [exists p; reflexivity |].
    exists (p ++ "/"). 
    induction p as [| a p IH]; [reflexivity | cbn; f_equal; exact IH].
Qed.

Lemma filename_plain (name : string) :
  existsb is_separator (list_ascii_of_string name) = false ->
  filename name = name.
Proof.
  destruct name as [| c rest]; [reflexivity |].
  cbn. intros H. apply orb_false_iff in H. destruct H as [Hc Hrest].
  rewrite Hrest, Hc. reflexivity.
Qed.

Lemma extension_under_lib (xrt name : string) :
  existsb is_separator (list_ascii_of_string name) = false ->
  extension (xrt // ("lib/" ++ name)) = extension name.
Proof.
  intros Hname.
  destruct (path_append_suffix xrt ("lib/" ++ name)) as [s Hs].
  unfold extension. rewrite Hs, filename_app.
  - cbn [append filename list_ascii_of_string existsb is_separator].
    change (Ascii.eqb "l" "/") with false.
    change (Ascii.eqb "i" "/") with false.
    change (Ascii.eqb "b" "/") with false.
    change (Ascii.eqb "/" "/") with true.
    cbn. rewrite Hname. rewrite (filename_plain name Hname). reflexivity.
  - cbn. reflexivity.
Qed.

Lemma last_char_app (s t : string) :
  t <> EmptyString -> last_char (s ++ t) = last_char t.
Proof.
  intros Ht. induction s as [| a s IH]; [reflexivity |].
  cbn [append last_char]. rewrite <- IH.
  destruct (s ++ t) eqn:E; [| reflexivity].
  destruct s; [cbn in E; congruence | discriminate].
Qed.

Lemma extension_xdp (xrt : string) :
  extension ((xrt // "lib") // "liboclxdp.so") = ".so".
Proof.
  destruct (path_append_suffix xrt "lib") as [s Hs]. rewrite Hs.
  unfold path_append at 1. cbv iota.
  change (is_separator "l") with false. cbv iota.
  rewrite last_char_app by discriminate. cbn [last_char].
  change (is_separator "b") with false. cbv iota.
  unfold extension.
  replace ((s ++ "lib") ++ "/" ++ "liboclxdp.so")
    with (s ++ "lib/liboclxdp.so").
  - rewrite filename_app by reflexivity. reflexivity.
  - clear Hs. induction s as [| a s IH]; [reflexivity | cbn; f_equal; exact IH].
Qed.

(** X12: whatever the install root is (empty, relative, with or without a
    final separator), each of the five fixed library paths has the extension
    [.so]; on these paths [isDLL] is the test "exists and is a regular
    file". *)
Theorem isDLL_fixed_paths (w : World) (xrt : string) :
  let is_file p := fs_exists w p && fs_is_regular_file w p in
  isDLL_at w (xrt // "lib/libxrt_core.so") = is_file (xrt // "lib/libxrt_core.so")
  /\ isDLL_at w (xrt // "lib/libxrt_aws.so") = is_file (xrt // "lib/libxrt_aws.so")
  /\ isDLL_at w (xrt // "lib/libxrt_hwemu.so")
     = is_file (xrt // "lib/libxrt_hwemu.so")
  /\ isDLL_at w (xrt // "lib/libxrt_swemu.so")
     = is_file (xrt // "lib/libxrt_swemu.so")
  /\ isDLL_at w ((xrt // "lib") // "liboclxdp.so")
     = is_file ((xrt // "lib") // "liboclxdp.so").
Proof.
  cbv zeta. unfold isDLL_at.
  change "lib/libxrt_core.so" with ("lib/" ++ "libxrt_core.so").
  change "lib/libxrt_aws.so" with ("lib/" ++ "libxrt_aws.so").
  change "lib/libxrt_hwemu.so" with ("lib/" ++ "libxrt_hwemu.so").
  change "lib/libxrt_swemu.so" with ("lib/" ++ "libxrt_swemu.so").
  rewrite !extension_under_lib by reflexivity.
  rewrite extension_xdp.
  repeat split; apply andb_true_r.
Qed.

(** *** Both emulation drivers *)

(** X13: the emulation drivers are not alternatives.  In emulation mode with
    an install root that is a directory, when the secondary block completes
    and both emulation drivers (configured, or the default files for "null")
    are version-2 drivers that probe devices, [loadDevices] never examines
    the primary file and returns the devices of the secondary block, then
    those of the hardware emulation driver, then those of the software
    emulation driver. *)
Theorem loadDevices_emulation_drivers
    (w : World) (t : list event) (d : list device)
    (hh hs : handle) (ph ps : Z) :
  install_root w <> EmptyString ->
  isEmulationMode w = true ->
  fs_is_directory w (install_root w) = true ->
  load_aws w hal2 (install_root w) [] = (t, inr d) ->
  let hw := emulation_driver_path w (get_hw_em_driver w)
              (install_root w // "lib/libxrt_hwemu.so") in
  let sw := emulation_driver_path w (get_sw_em_driver w)
              (install_root w // "lib/libxrt_swemu.so") in
  isDLL_at w hw = true -> dlopen w hw = Some hh ->
  dlsym w hh propeFunc = Some ph -> to_unsigned ph <> 0 ->
  abi_version w hh = 2 ->
  isDLL_at w sw = true -> dlopen w sw = Some hs ->
  dlsym w hs propeFunc = Some ps -> to_unsigned ps <> 0 ->
  abi_version w hs = 2 ->
  outcome (loadDevices w hal2)
  = inr (d ++ hal2 hw hh (to_unsigned ph) ++ hal2 sw hs (to_unsigned ps))%list
  /\ attempted primary (trace (loadDevices w hal2)) = false
  /\ opens (trace (loadDevices w hal2)) = (opens t + 2)%nat.
Proof.
  intros Hroot Hemu Hdir Haws hw sw Hfh Hoh Hph Hnh Hvh Hfs Hos Hps Hns Hvs.
  assert (Hgate : negb (empty (install_root w)) && isEmulationMode w = true)
    by (apply emulation_gate; assumption).
  assert (Hoff : negb (empty (install_root w)) && negb (isEmulationMode w) = false)
    by (rewrite Hemu; apply andb_false_r).
  set (thw := (EvIsDirectory (install_root w) :: EvConfig hw_emulation
               :: default_checks hw_emulation (get_hw_em_driver w)
                    (install_root w // "lib/libxrt_hwemu.so")
               ++ [EvIsDLL hw_emulation hw; EvDlopen hw RTLD_LAZY;
                   EvDlsym hh propeFunc; EvCall hh propeFunc;
                   EvDlsym hh versionFunc; EvCall hh versionFunc;
                   EvRelease hh; EvCreateDevices hw hh (to_unsigned ph)])%list).
  set (tsw := (EvIsDirectory (install_root w) :: EvConfig sw_emulation
               :: default_checks sw_emulation (get_sw_em_driver w)
                    (install_root w // "lib/libxrt_swemu.so")
               ++ [EvIsDLL sw_emulation sw; EvDlopen sw RTLD_LAZY;
                   EvDlsym hs propeFunc; EvCall hs propeFunc;
                   EvDlsym hs versionFunc; EvCall hs versionFunc;
                   EvRelease hs; EvCreateDevices sw hs (to_unsigned ps)])%list).
  assert (Ehw : forall d0,
             load_hwemu w hal2 (install_root w) d0
             = (thw, inr (d0 ++ hal2 hw hh (to_unsigned ph))%list)).
  { intros d0.
    rewrite (load_hwemu_examined hal2 w (install_root w) d0 Hgate Hdir).
    cbv zeta. fold hw. unfold load_if_dll. rewrite Hfh.
    rewrite (createHalDevices_v2 w d0 hw hh ph) by assumption. reflexivity. }
  assert (Esw : forall d0,
             load_swemu w hal2 (install_root w) d0
             = (tsw, inr (d0 ++ hal2 sw hs (to_unsigned ps))%list)).
  { intros d0.
    rewrite (load_swemu_examined hal2 w (install_root w) d0 Hgate Hdir).
    cbv zeta. fold sw. unfold load_if_dll. rewrite Hfs.
    rewrite (createHalDevices_v2 w d0 sw hs ps) by assumption. reflexivity. }
  assert (E : loadDevices w hal2
              = ((t ++ thw ++ tsw)%list,
                 inr (d ++ hal2 hw hh (to_unsigned ph)
                        ++ hal2 sw hs (to_unsigned ps))%list)).
  { rewrite loadDevices_stages.
    rewrite load_core_skipped by exact Hoff. rewrite bind_value.
    cbn [outcome snd trace fst app]. rewrite Haws, bind_value.
    rewrite Ehw, bind_value. cbn [outcome snd trace fst].
    rewrite Esw, bind_value. cbn [outcome snd trace fst].
    rewrite (empty_false _ Hroot). cbn [outcome snd trace fst throw ret].
    rewrite app_nil_r, <- !app_assoc. reflexivity. }
  rewrite E. cbn [outcome snd trace fst].
  assert (Hopens : forall a b, opens (a ++ b) = (opens a + opens b)%nat).
  { intros a b. unfold opens. rewrite filter_app, length_app. reflexivity. }
  split; [reflexivity | split].
  - pose proof (load_aws_events w []) as Hev. rewrite Haws in Hev.
    unfold attempted. rewrite !existsb_app.
    assert (Ht : existsb (is_check primary) t = false).
    { destruct (existsb (is_check primary) t) eqn:Hp; [| reflexivity].
      apply existsb_exists in Hp. destruct Hp as [e [Hin He]].
      destruct e; try discriminate. destruct k; try discriminate.
      destruct (Hev _ Hin) as [_ [Hno _]]. congruence. }
    rewrite Ht. subst thw tsw. unfold default_checks.
    destruct (get_hw_em_driver w =? "null")%string,
             (get_sw_em_driver w =? "null")%string; reflexivity.
  - rewrite !Hopens. subst thw tsw. unfold default_checks, opens.
    destruct (get_hw_em_driver w =? "null")%string,
             (get_sw_em_driver w =? "null")%string; cbn; lia.
Qed.

(** *** No driver installed *)

(** X16: an installation without driver is not an error.  When the install
    root is set and is a directory and none of the candidate paths is a
    shared library, [loadDevices] returns the empty list, in either mode,
    and opens no library. *)
Theorem loadDevices_nothing_installed (w : World) :
  install_root w <> EmptyString ->
  fs_is_directory w (install_root w) = true ->
  (forall p, In p (candidate_paths w) -> isDLL_at w p = false) ->
  outcome (loadDevices w hal2) = inr []
  /\ opens (trace (loadDevices w hal2)) = 0%nat.
Proof.
  intros Hroot Hdir Hnone.
  assert (Hquiet : forall e, In e (trace (loadDevices w hal2)) ->
                             match e with
                             | EvDlopen _ _ | EvCreateDevices _ _ _ => False
                             | _ => True
                             end).
  { intros e Hin. pose proof (loadDevices_events w e Hin) as He.
    destruct e; auto.
    - destruct He as [[Hc Hf] _]. rewrite (Hnone _ Hc) in Hf. discriminate.
    - destruct He as [[Hc Hf] _]. rewrite (Hnone _ Hc) in Hf. discriminate. }
  assert (Hcreated : created hal2 (trace (loadDevices w hal2)) = []).
  { revert Hquiet. generalize (trace (loadDevices w hal2)).
    induction l as [| e l IH]; intros Hq; [reflexivity |].
    unfold created in *. cbn [flat_map].
    rewrite IH by (intros e' Hin; apply Hq; right; exact Hin).
    specialize (Hq e (or_introl eq_refl)).
    destruct e; try reflexivity. destruct Hq. }
  assert (Hopens : opens (trace (loadDevices w hal2)) = 0%nat).
  { revert Hquiet. generalize (trace (loadDevices w hal2)).
    induction l as [| e l IH]; intros Hq; [reflexivity |].
    unfold opens in *. cbn.
    specialize (IH (fun e' Hin => Hq e' (or_intror Hin))).
    specialize (Hq e (or_introl eq_refl)).
    destruct e; try exact IH. destruct Hq. }
  split; [| exact Hopens].
  destruct (outcome (loadDevices w hal2)) as [x | d] eqn:Hout.
  - destruct (loadDevices_raises w x Hout)
      as [[_ [Hd _]] | [[dll [[Hc Hf] _]] | [[h [[dll [[Hc Hf] _]] _]] | [Hr _]]]].
    + congruence.
    + rewrite (Hnone _ Hc) in Hf. discriminate.
    + rewrite (Hnone _ Hc) in Hf. discriminate.
    + contradiction.
  - rewrite (loadDevices_extends w d Hout), Hcreated. reflexivity.
Qed.

End Coverage.

(** *** The XDP library *)

(** X14: the constructor of [xdp_once_loader] completes exactly when the
    install root is set, [root/lib] is a directory, [root/lib/liboclxdp.so]
    is a shared library that [dlopen] accepts, and the library exports
    [initXDPLib]; it then has checked the directory and the file, opened the
    library with [RTLD_NOW], and invoked [initXDPLib] once, as its last
    step. *)
Theorem xdp_once_loader_completes_iff (w : World) :
  let lib := install_root w // "lib" in
  let p := lib // "liboclxdp.so" in
  (outcome (xdp_once_loader w) = inr tt
   <-> install_root w <> EmptyString
       /\ fs_is_directory w lib = true
       /\ isDLL_at w p = true
       /\ exists h, dlopen w p = Some h /\ dlsym w h "initXDPLib" <> None)
  /\ (outcome (xdp_once_loader w) = inr tt ->
      exists h,
        dlopen w p = Some h
        /\ trace (xdp_once_loader w)
           = [EvIsDirectory lib; EvIsDLL xdp p; EvDlopen p RTLD_NOW;
              EvDlsym h "initXDPLib"; EvCall h "initXDPLib"]).
Proof.
  cbv zeta. unfold xdp_once_loader, directoryOrError, isDLL.
  fold (install_root w).
  destruct (empty (install_root w)) eqn:Hempty.
  { apply empty_true_inv in Hempty. split.
    - split; [discriminate | intros [H _]; contradiction].
    - discriminate. }
  apply empty_false_inv in Hempty.
  destruct (fs_is_directory w (install_root w // "lib")) eqn:Hdir; cbn [negb].
  2:{ split.
      - split; [discriminate | intros [_ [H _]]; discriminate].
      - discriminate. }
  destruct (isDLL_at w ((install_root w // "lib") // "liboclxdp.so")) eqn:Hfile;
    cbn [negb].
  2:{ split.
      - split; [discriminate | intros [_ [_ [H _]]]; discriminate].
      - discriminate. }
  destruct (dlopen w ((install_root w // "lib") // "liboclxdp.so"))
    as [h |] eqn:Hopen.
  2:{ split.
      - split; [discriminate | intros [_ [_ [_ [h [H _]]]]]; discriminate].
      - discriminate. }
  destruct (dlsym w h "initXDPLib") as [v |] eqn:Hsym.
  - split.
    + split; [| reflexivity]. intros _. repeat split; auto.
      exists h. split; [reflexivity | congruence].
    + intros _. exists h. split; reflexivity.
  - split.
    + split; [discriminate |].
      intros [_ [_ [_ [h' [H Hs]]]]]. injection H as <-. contradiction.
    + discriminate.
Qed.

(** The events the XDP loader can make. *)
Lemma xdp_once_loader_events (w : World) (e : event) :
  In e (trace (xdp_once_loader w)) ->
  match e with
  | EvIsDirectory p => p = install_root w // "lib"
  | EvIsDLL k p => k = xdp /\ p = (install_root w // "lib") // "liboclxdp.so"
  | EvDlopen p b =>
      p = (install_root w // "lib") // "liboclxdp.so"
      /\ isDLL_at w p = true /\ b = RTLD_NOW
  | EvDlsym h name | EvCall h name =>
      name = "initXDPLib"
      /\ dlopen w ((install_root w // "lib") // "liboclxdp.so") = Some h
  | EvConfig _ | EvRelease _ | EvDlclose _ | EvCreateDevices _ _ _ => False
  end.
Proof.
  unfold xdp_once_loader, directoryOrError, isDLL. fold (install_root w).
  destruct (empty (install_root w)); [intros [] |].
  destruct (fs_is_directory w (install_root w // "lib")); cbn [negb].
  2:{ cbn. intros [<- | []]. reflexivity. }
  destruct (isDLL_at w ((install_root w // "lib") // "liboclxdp.so")) eqn:Hfile;
    cbn [negb].
  2:{ cbn. intros [<- | [<- | []]]; auto. }
  destruct (dlopen w ((install_root w // "lib") // "liboclxdp.so"))
    as [h |] eqn:Hopen.
  2:{ cbn. intros [<- | [<- | [<- | []]]]; auto. }
  destruct (dlsym w h "initXDPLib");
    cbn; intuition (subst; auto).
Qed.

(** X15: [load_xdp] keeps what it opens.  Over any sequence of calls, from
    any state of the static, no handle is ever closed or handed on, also not
    after a [dlopen] whose library lacks [initXDPLib]; the only file opened
    is a valid [root/lib/liboclxdp.so] of the world of the call, opened with
    [RTLD_NOW]; and the only entry point looked up or called is
    [initXDPLib]. *)
Theorem load_xdp_keeps_handles
    (ws : list World) (xdp_loaded : bool) (e : event) :
  In e (fst (load_xdp_calls ws xdp_loaded)) ->
  match e with
  | EvDlclose _ | EvRelease _ | EvCreateDevices _ _ _ | EvConfig _ => False
  | EvDlopen p b =>
      b = RTLD_NOW
      /\ exists w, In w ws /\ p = (install_root w // "lib") // "liboclxdp.so"
                   /\ isDLL_at w p = true
  | EvDlsym _ name | EvCall _ name => name = "initXDPLib"
  | EvIsDLL k _ => k = xdp
  | EvIsDirectory _ => True
  end.
Proof.
  revert xdp_loaded. induction ws as [| w ws IH]; intros xdp_loaded Hin.
  { destruct Hin. }
  cbn [load_xdp_calls] in Hin.
  destruct (load_xdp w xdp_loaded) as [loaded m] eqn:Hcall.
  destruct (load_xdp_calls ws loaded) as [t final] eqn:Hrest.
  cbn [fst] in Hin. apply in_app_or in Hin. destruct Hin as [Hin | Hin].
  - assert (Hm : trace m = [] \/ m = xdp_once_loader w).
    { unfold load_xdp in Hcall. destruct xdp_loaded.
      - injection Hcall as _ <-. left. reflexivity.
      - destruct (outcome (xdp_once_loader w));
          injection Hcall as _ <-; right; reflexivity. }
    destruct Hm as [Hm | ->]; [rewrite Hm in Hin; destruct Hin |].
    pose proof (xdp_once_loader_events w e Hin) as He.
    destruct e; auto; try tauto.
    destruct He as [Hp [Hfile Hb]]. split; [exact Hb |].
    exists w. subst dll. repeat split; [left; reflexivity | exact Hfile].
  - specialize (IH loaded). rewrite Hrest in IH. specialize (IH Hin).
    destruct e; auto.
    destruct IH as [Hb [w' [Hw' Hp]]]. split; [exact Hb |].
    exists w'. split; [right; exact Hw' | exact Hp].
Qed.

(** ** Evaluations at concrete worlds *)

(** C3 at a driver whose [xclVersion] returns 4294967295: the version is
    held in an [int], and the message names -1, not the reported version. *)
Theorem createHalDevices_version_max_message :
  dlsym world_core_version_max 3 versionFunc = Some 4294967295
  /\ outcome (createHalDevices world_core_version_max numbered [] core_so 0)
     = inl (runtime_error "HAL version -1 not supported")
  /\ outcome (loadDevices world_core_version_max numbered)
     = inl (runtime_error "HAL version -1 not supported").
Proof. repeat split; vm_compute; reflexivity. Qed.

(** C1 without install root, in a working directory that holds
    [lib/libxrt_aws.so]: the secondary driver is opened, probed and handed to
    the adapter before "XILINX_XRT must be set" is thrown; and when
    [dlopen] rejects the file, the call ends with the open failure, not with
    "XILINX_XRT must be set". *)
Theorem loadDevices_root_unset_loads_secondary :
  install_root world_unset_root = EmptyString
  /\ loadDevices world_unset_root numbered
     = ([EvIsDLL secondary "lib/libxrt_aws.so";
         EvDlopen "lib/libxrt_aws.so" RTLD_LAZY;
         EvDlsym 7 "xclProbe"; EvCall 7 "xclProbe";
         EvDlsym 7 "xclVersion"; EvCall 7 "xclVersion";
         EvRelease 7; EvCreateDevices "lib/libxrt_aws.so" 7 1],
        inl (runtime_error "XILINX_XRT must be set"))
  /\ install_root world_unset_root_bad_file = EmptyString
  /\ loadDevices world_unset_root_bad_file numbered
     = ([EvIsDLL secondary "lib/libxrt_aws.so";
         EvDlopen "lib/libxrt_aws.so" RTLD_LAZY],
        inl (open_error world_unset_root_bad_file "lib/libxrt_aws.so"))
  /\ open_error world_unset_root_bad_file "lib/libxrt_aws.so" <> root_not_set.
Proof.
  repeat split; try (vm_compute; reflexivity).
  vm_compute. discriminate.
Qed.

(** C8 as stated fails: emulation mode, an install root that is a
    directory, both configurations "null" and no default emulation file;
    the secondary driver has a device and no version entry point, and
    [loadDevices] ends with its exception. *)
Lemma emulation_defaults_absent_secondary_fatal :
  let w := world_emulation_aws_legacy in
  isEmulationMode w = true
  /\ install_root w = xrt_root
  /\ fs_is_directory w (install_root w) = true
  /\ get_hw_em_driver w = "null"
  /\ get_sw_em_driver w = "null"
  /\ isDLL_at w (install_root w // "lib/libxrt_hwemu.so") = false
  /\ isDLL_at w (install_root w // "lib/libxrt_swemu.so") = false
  /\ outcome (loadDevices w numbered)
     = inl (runtime_error "Legacy HAL version 1 not supported")
  /\ ~ exists d, outcome (loadDevices w numbered) = inr d.
Proof.
  cbv zeta. repeat split; try (vm_compute; reflexivity).
  intros [d Hd]. vm_compute in Hd. discriminate.
Qed.

(** C9 as stated fails: a first call that throws is not the last attempt.
    With a library that lacks [initXDPLib] the second call opens it again;
    and after a first call without install root, a second call in a complete
    installation loads the library and invokes [initXDPLib]. *)
Lemma load_xdp_failure_retried :
  (exists e, outcome (snd (load_xdp world_xdp_no_init false)) = inl e)
  /\ fst (load_xdp world_xdp_no_init false) = false
  /\ opens (trace (snd (load_xdp world_xdp_no_init
                          (fst (load_xdp world_xdp_no_init false))))) = 1%nat
  /\ opens (fst (load_xdp_calls [world_xdp_no_init; world_xdp_no_init] false))
     = 2%nat
  /\ (exists e, outcome (snd (load_xdp world_unset_root false)) = inl e)
  /\ load_xdp_calls [world_unset_root; world_xdp] false
     = ([EvIsDirectory "/opt/xilinx/xrt/lib"; EvIsDLL xdp xdp_so;
         EvDlopen xdp_so RTLD_NOW; EvDlsym 9 "initXDPLib";
         EvCall 9 "initXDPLib"], true).
Proof.
  repeat split; try (vm_compute; reflexivity);
    eexists; vm_compute; reflexivity.
Qed.

(** ** The theorems at concrete worlds *)

Lemma loadDevices_root_not_directory_witness :
  loadDevices world_root_not_a_directory numbered
  = ([EvIsDirectory xrt_root],
     inl (runtime_error "No such directory '/opt/xilinx/xrt'"))
  /\ attempted primary (trace (loadDevices world_root_not_a_directory numbered))
     = false.
Proof.
  apply (@loadDevices_root_not_directory nat numbered
           world_root_not_a_directory xrt_root);
    [reflexivity | discriminate | reflexivity | reflexivity].
Defined.

Lemma createHalDevices_not_a_driver_witness :
  createHalDevices world_core_not_a_driver numbered [] core_so 0
  = ([EvDlopen core_so RTLD_LAZY; EvDlsym 3 "xclProbe"; EvDlclose 3], inr [])
  /\ attempted secondary (trace (loadDevices world_core_not_a_driver numbered))
     = true.
Proof.
  destruct (@createHalDevices_not_a_driver nat numbered
              world_core_not_a_driver [] core_so 0 3 eq_refl eq_refl)
    as [Hcall [Hcore _]].
  split; [exact Hcall |].
  apply Hcore; [reflexivity | discriminate | reflexivity | reflexivity | reflexivity].
Defined.

Lemma createHalDevices_device_count_witness :
  In (EvCreateDevices core_so 3 2)
     (trace (createHalDevices world_core_v2 numbered [] core_so 0))
  /\ outcome (createHalDevices world_core_v2 numbered [] core_so 0)
     = inr [0%nat; 1%nat].
Proof.
  destruct (@createHalDevices_device_count nat numbered
              world_core_v2 [] core_so 0 2 3 eq_refl eq_refl)
    as [_ [_ [_ Hv2]]]; [unfold UINT_MODULUS; lia | unfold UINT_MODULUS; lia |].
  apply Hv2; [discriminate | reflexivity].
Defined.

Lemma createHalDevices_handle_ownership_witness :
  released 3 (trace (createHalDevices world_core_v2 numbered [] core_so 0)) = true
  /\ closed 3 (trace (createHalDevices world_core_v2 numbered [] core_so 0)) = false.
Proof.
  destruct (@createHalDevices_handle_ownership nat numbered
              world_core_v2 [] core_so 0 3 eq_refl)
    as [Hreleased [Hclosed _]].
  split; [exact Hreleased | exact Hclosed].
Defined.

Lemma secondary_attempted_iff_no_devices_witness :
  attempted secondary (trace (loadDevices world_core_v2 numbered)) = false.
Proof.
  destruct (@secondary_attempted_iff_no_devices nat numbered world_core_v2
              [EvIsDirectory xrt_root; EvIsDLL primary core_so;
               EvDlopen core_so RTLD_LAZY; EvDlsym 3 "xclProbe";
               EvCall 3 "xclProbe"; EvDlsym 3 "xclVersion";
               EvCall 3 "xclVersion"; EvRelease 3;
               EvCreateDevices core_so 3 2]
              [0%nat; 1%nat] eq_refl)
    as [Hiff _].
  exact Hiff.
Defined.

Lemma loadDevices_unsupported_version_aborts_witness :
  outcome (loadDevices world_emulation_hw_version_3 numbered)
  = inl (runtime_error "HAL version 3 not supported")
  /\ outcome (loadDevices world_core_legacy numbered)
     = inl (runtime_error "Legacy HAL version 1 not supported")
  /\ attempted secondary (trace (loadDevices world_core_legacy numbered)) = false.
Proof.
  split.
  - apply (proj1 (@loadDevices_unsupported_version_aborts nat numbered
                    world_emulation_hw_version_3) 8).
    + vm_compute. auto 20.
    + vm_compute. discriminate.
  - destruct (proj2 (@loadDevices_unsupported_version_aborts nat numbered
                       world_core_legacy) 3 1)
      as [Hcall [Hsecondary _]];
      try reflexivity; try discriminate.
    rewrite Hcall. split; [reflexivity | reflexivity].
Defined.

Lemma emulation_defaults_witness :
  loadDevices world_emulation_aws_v2 numbered
  = ([EvIsDLL secondary aws_so; EvDlopen aws_so RTLD_LAZY;
      EvDlsym 4 "xclProbe"; EvCall 4 "xclProbe";
      EvDlsym 4 "xclVersion"; EvCall 4 "xclVersion";
      EvRelease 4; EvCreateDevices aws_so 4 1;
      EvIsDirectory xrt_root; EvConfig hw_emulation;
      EvIsDLL hw_emulation hwemu_so; EvIsDLL hw_emulation "null";
      EvIsDirectory xrt_root; EvConfig sw_emulation;
      EvIsDLL sw_emulation swemu_so; EvIsDLL sw_emulation "null"],
     inr [0%nat]).
Proof.
  destruct (@emulation_defaults nat numbered world_emulation_aws_v2)
    as [_ [_ [_ Hidle]]]; [discriminate | reflexivity | reflexivity |].
  destruct Hidle as [_ [Hok _]];
    [reflexivity | reflexivity | reflexivity | reflexivity |].
  apply (Hok [EvIsDLL secondary aws_so; EvDlopen aws_so RTLD_LAZY;
              EvDlsym 4 "xclProbe"; EvCall 4 "xclProbe";
              EvDlsym 4 "xclVersion"; EvCall 4 "xclVersion";
              EvRelease 4; EvCreateDevices aws_so 4 1] [0%nat]).
  reflexivity.
Defined.

Lemma load_xdp_once_witness :
  fst (load_xdp world_xdp false) = true
  /\ load_xdp_calls [world_xdp; world_xdp_no_init]
       (fst (load_xdp world_xdp false)) = ([], true)
  /\ fst (load_xdp world_xdp_no_init false) = false
  /\ (invocations "initXDPLib"
        (fst (load_xdp_calls [world_unset_root; world_xdp; world_xdp] false))
      <= 1)%nat.
Proof.
  destruct load_xdp_once as [Hcount [Hdone Hfailed]].
  destruct (Hdone world_xdp tt eq_refl) as [Hstate Hlater].
  split; [exact Hstate | split; [apply Hlater | split]].
  - eapply Hfailed. vm_compute. reflexivity.
  - apply Hcount.
Defined.

(** ** The further properties at concrete worlds *)

Lemma loadDevices_opens_only_valid_candidates_witness :
  In core_so (candidate_paths world_core_v2)
  /\ fs_exists world_core_v2 core_so = true
  /\ fs_is_regular_file world_core_v2 core_so = true
  /\ extension core_so = ".so"
  /\ RTLD_LAZY = RTLD_LAZY.
Proof.
  apply (@loadDevices_opens_only_valid_candidates nat numbered
           world_core_v2 core_so RTLD_LAZY).
  vm_compute. auto 20.
Defined.

Lemma loadDevices_adapter_calls_witness :
  dlopen world_core_v2 core_so = Some 3
  /\ abi_version world_core_v2 3 = 2
  /\ 0 < 2 < UINT_MODULUS.
Proof.
  destruct (@loadDevices_adapter_calls nat numbered world_core_v2 core_so 3 2)
    as [_ [_ [Hopen [Hv [_ Hcount]]]]]; [vm_compute; auto 20 |].
  auto.
Defined.

Lemma loadDevices_calls_resolved_entry_points_witness :
  dlsym world_core_v2 3 "xclVersion" <> None.
Proof.
  destruct (@loadDevices_calls_resolved_entry_points nat numbered
              world_core_v2 3 "xclVersion")
    as [_ [Hsym _]]; [vm_compute; auto 20 |].
  exact Hsym.
Defined.

Lemma loadDevices_mode_exclusive_witness :
  isEmulationMode world_emulation_defaults = true
  /\ attempted primary (trace (loadDevices world_emulation_defaults numbered))
     && (attempted hw_emulation
           (trace (loadDevices world_emulation_defaults numbered))
         || attempted sw_emulation
              (trace (loadDevices world_emulation_defaults numbered)))
     = false.
Proof.
  destruct (@loadDevices_mode_exclusive nat numbered world_emulation_defaults)
    as [_ [Hemu [Hexcl _]]].
  split; [| exact Hexcl].
  apply Hemu. left. vm_compute. reflexivity.
Defined.

Lemma loadDevices_open_failure_fatal_witness :
  outcome (loadDevices world_core_unloadable numbered)
  = inl (open_error world_core_unloadable core_so)
  /\ attempted secondary (trace (loadDevices world_core_unloadable numbered))
     = false.
Proof.
  destruct (@loadDevices_open_failure_fatal nat numbered
              world_core_unloadable core_so RTLD_LAZY)
    as [Hout Hsecondary]; [vm_compute; auto 20 | reflexivity |].
  split; [exact Hout |].
  apply Hsecondary; [reflexivity | vm_compute; reflexivity].
Defined.


Lemma loadDevices_settles_handles_witness :
  acquisitions world_core_no_devices 3
    (trace (loadDevices world_core_no_devices numbered)) = 1%nat
  /\ acquisitions world_core_no_devices 3
       (trace (loadDevices world_core_no_devices numbered))
     = (closes 3%Z (trace (loadDevices world_core_no_devices numbered))
        + releases 3%Z (trace (loadDevices world_core_no_devices numbered)))%nat.
Proof.
  split; [vm_compute; reflexivity |].
  apply (@loadDevices_settles_handles nat numbered world_core_no_devices 3).
Defined.

Lemma loadDevices_returns_created_witness :
  [0; 1; 0; 1; 2]%nat
  = created numbered (trace (loadDevices world_emulation_defaults numbered)).
Proof.
  apply (@loadDevices_returns_created nat numbered world_emulation_defaults).
  vm_compute. reflexivity.
Defined.

Lemma loadDevices_primary_driver_witness :
  loadDevices world_core_v2 numbered
  = ([EvIsDirectory xrt_root; EvIsDLL primary core_so;
      EvDlopen core_so RTLD_LAZY; EvDlsym 3 "xclProbe"; EvCall 3 "xclProbe";
      EvDlsym 3 "xclVersion"; EvCall 3 "xclVersion";
      EvRelease 3; EvCreateDevices core_so 3 2],
     inr [0; 1]%nat).
Proof.
  destruct (@loadDevices_primary_driver nat numbered world_core_v2 3 2)
    as [_ [Hsome _]];
    [discriminate | reflexivity | reflexivity | reflexivity | reflexivity
     | reflexivity | discriminate | reflexivity |].
  apply Hsome. discriminate.
Defined.

Lemma loadDevices_secondary_fallback_witness :
  loadDevices world_core_no_devices numbered
  = ([EvIsDirectory xrt_root; EvIsDLL primary core_so;
      EvDlopen core_so RTLD_LAZY; EvDlsym 3 "xclProbe"; EvCall 3 "xclProbe";
      EvDlclose 3;
      EvIsDLL secondary aws_so;
      EvDlopen aws_so RTLD_LAZY; EvDlsym 4 "xclProbe"; EvCall 4 "xclProbe";
      EvDlsym 4 "xclVersion"; EvCall 4 "xclVersion";
      EvRelease 4; EvCreateDevices aws_so 4 1],
     inr [0]%nat).
Proof.
  apply (@loadDevices_secondary_fallback nat numbered world_core_no_devices
           [EvIsDirectory xrt_root; EvIsDLL primary core_so;
            EvDlopen core_so RTLD_LAZY; EvDlsym 3 "xclProbe";
            EvCall 3 "xclProbe"; EvDlclose 3] 4 1);
    [discriminate | reflexivity | reflexivity | reflexivity | reflexivity
     | reflexivity | discriminate | reflexivity].
Defined.

Lemma emulation_override_witness :
  isDLL_at world_emulation_bad_override hwemu_so = true
  /\ load_hwemu world_emulation_bad_override numbered xrt_root []
     = ([EvIsDirectory xrt_root; EvConfig hw_emulation;
         EvIsDLL hw_emulation "/opt/drivers/hw_driver.bin"], inr []).
Proof.
  split; [reflexivity |].
  destruct (@emulation_override nat numbered world_emulation_bad_override [])
    as [Hhw _]; [discriminate | reflexivity | reflexivity |].
  destruct Hhw as [_ Hskip]; [discriminate |].
  apply Hskip. reflexivity.
Defined.

Lemma isDLL_fixed_paths_witness :
  isDLL_at world_core_v2 ("/opt/xilinx/xrt/" // "lib/libxrt_core.so")
  = fs_exists world_core_v2 ("/opt/xilinx/xrt/" // "lib/libxrt_core.so")
    && fs_is_regular_file world_core_v2
         ("/opt/xilinx/xrt/" // "lib/libxrt_core.so").
Proof.
  exact (proj1 (isDLL_fixed_paths world_core_v2 "/opt/xilinx/xrt/")).
Defined.

Lemma loadDevices_emulation_drivers_witness :
  outcome (loadDevices world_emulation_defaults numbered)
  = inr [0; 1; 0; 1; 2]%nat
  /\ attempted primary (trace (loadDevices world_emulation_defaults numbered))
     = false.
Proof.
  destruct (@loadDevices_emulation_drivers nat numbered world_emulation_defaults
              [EvIsDLL secondary aws_so] [] 5 6 2 3)
    as [Hout [Hprimary _]];
    [discriminate | reflexivity | reflexivity | reflexivity
     | reflexivity | reflexivity | reflexivity | discriminate | reflexivity
     | reflexivity | reflexivity | reflexivity | discriminate | reflexivity |].
  split; [exact Hout | exact Hprimary].
Defined.

Lemma xdp_once_loader_completes_iff_witness :
  outcome (xdp_once_loader world_xdp) = inr tt
  /\ outcome (xdp_once_loader world_xdp_no_init) <> inr tt.
Proof.
  split.
  - apply (proj1 (xdp_once_loader_completes_iff world_xdp)).
    repeat split; [discriminate | exists 9; split; [reflexivity | discriminate]].
  - intros H.
    apply (proj1 (xdp_once_loader_completes_iff world_xdp_no_init)) in H.
    destruct H as [_ [_ [_ [h [Hopen Hsym]]]]].
    injection Hopen as <-. apply Hsym. reflexivity.
Defined.

Lemma load_xdp_keeps_handles_witness :
  RTLD_NOW = RTLD_NOW
  /\ exists w,
      In w [world_xdp_no_init; world_xdp]
      /\ xdp_so = (install_root w // "lib") // "liboclxdp.so"
      /\ isDLL_at w xdp_so = true.
Proof.
  apply (load_xdp_keeps_handles [world_xdp_no_init; world_xdp] false
           (EvDlopen xdp_so RTLD_NOW)).
  vm_compute. auto 20.
Defined.

Lemma loadDevices_nothing_installed_witness :
  outcome (loadDevices world_no_drivers numbered) = inr []
  /\ opens (trace (loadDevices world_no_drivers numbered)) = 0%nat.
Proof.
  apply (@loadDevices_nothing_installed nat numbered world_no_drivers);
    [discriminate | reflexivity |].
  intros p Hp. cbn in Hp.
  destruct Hp as [<- | [<- | [<- | [<- | [<- | [<- | []]]]]]]; reflexivity.
Defined.
